(** * scripts/release.py: the release-notes pipeline and the release driver

    A shallow embedding of [scripts/release.py].

    - Python [str] values are lists of Unicode code points ([N]).
    - The two regular expressions of the script are kept as the pattern
      strings the source writes; [re_compile] parses them into the node
      list a backtracking matcher runs, and [re_escape] is the standard
      library's escaping function.
    - The script's effects (printing, reading the console, running external
      commands, reading the environment and files) are threaded through an
      exception-and-state monad [M] over an environment of oracles. *)

From Stdlib Require Import List NArith ZArith Bool String Ascii Lia.
Import ListNotations.
Local Open Scope N_scope.

(** ** Strings *)

Definition char := N.
Definition str := list char.

(** A literal of the source, as code points. *)
Definition py (s : string) : str := map N_of_ascii (list_ascii_of_string s).

Definition NL : char := 10.
Definition BACKSLASH : char := 92.
Definition DQUOTE : char := 34.

Fixpoint str_eqb (a b : str) : bool :=
  match a, b with
  | [], [] => true
  | x :: a', y :: b' => (x =? y) && str_eqb a' b'
  | _, _ => false
  end.

(** [s.startswith(p)], returning what follows the prefix. *)
Fixpoint strip_prefix (p s : str) : option str :=
  match p with
  | [] => Some s
  | x :: p' =>
      match s with
      | [] => None
      | y :: s' => if x =? y then strip_prefix p' s' else None
      end
  end.

Definition startswith (s p : str) : bool :=
  match strip_prefix p s with Some _ => true | None => false end.

(** [s.find(p)]: index of the first occurrence, [None] for Python's -1. *)
Fixpoint find (p s : str) : option nat :=
  if startswith s p then Some 0%nat
  else match s with
       | [] => None
       | _ :: s' => option_map S (find p s')
       end.

(** [p in s] *)
Definition occurs (p s : str) : bool :=
  match find p s with Some _ => true | None => false end.

(** [str.isspace] on one code point. *)
Definition isspace (c : char) : bool :=
  ((9 <=? c) && (c <=? 13)) || ((28 <=? c) && (c <=? 32))
  || (c =? 133) || (c =? 160) || (c =? 5760)
  || ((8192 <=? c) && (c <=? 8202))
  || (c =? 8232) || (c =? 8233) || (c =? 8239) || (c =? 8287) || (c =? 12288).

Fixpoint lstrip (s : str) : str :=
  match s with
  | c :: s' => if isspace c then lstrip s' else s
  | [] => []
  end.

Definition rstrip (s : str) : str := rev (lstrip (rev s)).

(** [s.strip()] *)
Definition strip (s : str) : str := rstrip (lstrip s).

(** [s.replace(old, new)] for a non-empty [old]: occurrences are replaced
    left to right and do not overlap; [skip] counts the characters of the
    occurrence just replaced that are still to be passed over. *)
Fixpoint replace_from (old new s : str) (skip : nat) : str :=
  match s with
  | [] => []
  | c :: s' =>
      match skip with
      | S k => replace_from old new s' k
      | O =>
          if startswith s old
          then new ++ replace_from old new s' (List.length old - 1)
          else c :: replace_from old new s' 0
      end
  end.

(** With an empty [old], Python puts [new] before every character and at
    the end. *)
Definition replace (old new s : str) : str :=
  match old with
  | [] => flat_map (fun c => new ++ [c]) s ++ new
  | _ :: _ => replace_from old new s 0
  end.

(** ** Regular expressions: the part of [re] the script uses *)

Inductive atom : Type :=
| Literal (c : char)
| AnyChar (dotall : bool)
| CharSet (negate : bool) (members : list char).

Inductive node : Type :=
| One (a : atom)
| MaxRepeat (a : atom)
| MinRepeat (a : atom)
| GroupOpen
| GroupClose
| AtEnd.

Definition atom_matches (a : atom) (c : char) : bool :=
  match a with
  | Literal x => x =? c
  | AnyChar dotall => dotall || negb (c =? NL)
  | CharSet negate members => xorb negate (existsb (N.eqb c) members)
  end.

(** *** [re.escape] *)

(** The characters [re.escape] puts a backslash before:
    [()[]{}?*+-|^$\.&~# \t\n\r\v\f]. *)
Definition special_chars : list char :=
  [40; 41; 91; 93; 123; 125; 63; 42; 43; 45; 124; 94; 36; 92; 46; 38; 126;
   35; 32; 9; 10; 13; 11; 12].

Definition is_special (c : char) : bool := existsb (N.eqb c) special_chars.

Definition re_escape (s : str) : str :=
  flat_map (fun c => if is_special c then [BACKSLASH; c] else [c]) s.

(** *** [re.compile] *)

Inductive pmode : Type :=
| Normal
| Escaped
| InSet (negate : bool) (members : list char) (first : bool)
| InSetEscaped (negate : bool) (members : list char).

Inductive pgroup : Type := NoGroup | GroupIsOpen | GroupIsClosed.

Record pstate : Type := mkP {
  p_out : list node;     (* nodes parsed so far, last one first *)
  p_mode : pmode;
  p_group : pgroup
}.

Definition is_ascii_alnum (c : char) : bool :=
  ((48 <=? c) && (c <=? 57)) || ((65 <=? c) && (c <=? 90))
  || ((97 <=? c) && (c <=? 122)).

(** What a backslash followed by [c] stands for: the control-character
    escapes, a literal for any character that is not an ASCII letter or
    digit; the categories, back-references and numeric escapes are outside
    this model ([None]). *)
Definition escape_code (c : char) : option char :=
  if c =? 110 then Some 10          (* \n *)
  else if c =? 116 then Some 9      (* \t *)
  else if c =? 114 then Some 13     (* \r *)
  else if c =? 102 then Some 12     (* \f *)
  else if c =? 118 then Some 11     (* \v *)
  else if c =? 97 then Some 7       (* \a *)
  else if is_ascii_alnum c then None
  else Some c.

Definition push (n : node) (st : pstate) : pstate :=
  mkP (n :: p_out st) Normal (p_group st).

(** One character of the pattern. [None]: a pattern [re.compile] rejects,
    or syntax outside this model (alternation, [+], [?] as a quantifier,
    counted repetition, [^], ranges, a repeated or second group). *)
Definition parse_step (dotall : bool) (st : pstate) (c : char) : option pstate :=
  match p_mode st with
  | Escaped =>
      match escape_code c with
      | Some x => Some (push (One (Literal x)) st)
      | None => None
      end
  | InSetEscaped negate members =>
      match escape_code c with
      | Some x => Some (mkP (p_out st) (InSet negate (members ++ [x]) false) (p_group st))
      | None => None
      end
  | InSet negate members first =>
      if c =? 93 then                                   (* ] *)
        if first then None
        else Some (push (One (CharSet negate members)) st)
      else if c =? 92 then                              (* \ *)
        Some (mkP (p_out st) (InSetEscaped negate members) (p_group st))
      else if c =? 45 then None                         (* - *)
      else if (c =? 94) && first && negb negate then    (* ^ *)
        Some (mkP (p_out st) (InSet true members true) (p_group st))
      else Some (mkP (p_out st) (InSet negate (members ++ [c]) false) (p_group st))
  | Normal =>
      if c =? 92 then Some (mkP (p_out st) Escaped (p_group st))
      else if c =? 91 then Some (mkP (p_out st) (InSet false [] true) (p_group st))
      else if c =? 40 then                              (* ( *)
        match p_group st with
        | NoGroup => Some (mkP (GroupOpen :: p_out st) Normal GroupIsOpen)
        | _ => None
        end
      else if c =? 41 then                              (* ) *)
        match p_group st with
        | GroupIsOpen => Some (mkP (GroupClose :: p_out st) Normal GroupIsClosed)
        | _ => None
        end
      else if c =? 46 then Some (push (One (AnyChar dotall)) st)
      else if c =? 42 then                              (* * *)
        match p_out st with
        | One a :: out => Some (mkP (MaxRepeat a :: out) Normal (p_group st))
        | _ => None
        end
      else if c =? 63 then                              (* ? *)
        match p_out st with
        | MaxRepeat a :: out => Some (mkP (MinRepeat a :: out) Normal (p_group st))
        | _ => None
        end
      else if c =? 36 then Some (push AtEnd st)         (* $ *)
      else if (c =? 43) || (c =? 123) || (c =? 124) || (c =? 94) then None
      else Some (push (One (Literal c)) st)
  end.

Fixpoint parse_from (dotall : bool) (st : pstate) (p : str) : option pstate :=
  match p with
  | [] => Some st
  | c :: p' =>
      match parse_step dotall st c with
      | Some st' => parse_from dotall st' p'
      | None => None
      end
  end.

Definition parse_finish (st : pstate) : option (list node) :=
  match p_mode st, p_group st with
  | Normal, NoGroup | Normal, GroupIsClosed => Some (rev (p_out st))
  | _, _ => None
  end.

(** [re.compile(pattern)] and [re.compile(pattern, re.DOTALL)]. *)
Definition re_compile (dotall : bool) (pattern : str) : option (list node) :=
  match parse_from dotall (mkP [] Normal NoGroup) pattern with
  | Some st => parse_finish st
  | None => None
  end.

(** *** Matching *)

(** Group 1 while a match is tried: not reached yet, being captured (the
    text so far), or captured. *)
Inductive capture : Type :=
| Unset
| Capturing (text : str)
| Captured (text : str).

Definition consume (g : capture) (c : char) : capture :=
  match g with
  | Capturing text => Capturing (text ++ [c])
  | _ => g
  end.

(** [$] without [re.MULTILINE]: at the end of the string, or just before a
    newline that ends the string. *)
Definition at_end (s : str) : bool :=
  match s with
  | [] => true
  | [c] => c =? NL
  | _ => false
  end.

(** The backtracking matcher, anchored at the start of [s]: the first
    alternative that lets the rest of the pattern match wins. A greedy
    repeat tries to take one more character first, a lazy one tries the
    rest of the pattern first. *)
Fixpoint match_here (ns : list node) (s : str) (g : capture) : option capture :=
  match ns with
  | [] => Some g
  | One a :: rest =>
      match s with
      | c :: s' => if atom_matches a c then match_here rest s' (consume g c) else None
      | [] => None
      end
  | MaxRepeat a :: rest =>
      (fix greedy (s : str) (g : capture) : option capture :=
         match s with
         | c :: s' =>
             if atom_matches a c then
               match greedy s' (consume g c) with
               | Some r => Some r
               | None => match_here rest s g
               end
             else match_here rest s g
         | [] => match_here rest s g
         end) s g
  | MinRepeat a :: rest =>
      (fix lazy (s : str) (g : capture) : option capture :=
         match match_here rest s g with
         | Some r => Some r
         | None =>
             match s with
             | c :: s' => if atom_matches a c then lazy s' (consume g c) else None
             | [] => None
             end
         end) s g
  | GroupOpen :: rest => match_here rest s (Capturing [])
  | GroupClose :: rest =>
      match g with
      | Capturing text => match_here rest s (Captured text)
      | _ => match_here rest s g
      end
  | AtEnd :: rest => if at_end s then match_here rest s g else None
  end.

(** [pattern.search(s)]: the match at the leftmost position that has one. *)
Fixpoint re_search (ns : list node) (s : str) : option capture :=
  match match_here ns s Unset with
  | Some g => Some g
  | None =>
      match s with
      | [] => None
      | _ :: s' => re_search ns s'
      end
  end.

(** [match.group(1)]: [None] when the group took no part in the match. *)
Definition group1 (g : capture) : option str :=
  match g with
  | Captured text => Some text
  | _ => None
  end.

(** The patterns of the script. *)
Definition url_pattern_source : str := py "\*\*Full Changelog\*\*: (.*)$".

Definition changelog_pattern_source (version : str) : str :=
  py "## " ++ re_escape version ++ py "[^\n]*(.*?)## ".

(** ** The values, the environment and the effects of the script *)

(** What [json.loads] returns; [None], [str] and the rest of the script's
    values are among these. *)
Local Set Warnings "-register-all".
Inductive pyobj : Type :=
| PyNone
| PyBool (b : bool)
| PyNum (lexeme : str)
| PyStr (s : str)
| PyList (items : list pyobj)
| PyDict (items : list (str * pyobj)).

Inductive exn : Type :=
| CalledProcessError (text : str)
| FileNotFoundError (path : str)
| JSONDecodeError
| UnicodeDecodeError
| ReError
| KeyError (key : str)
| TypeError
| EOFError
| Exception (message : str)
| SystemExit (code : Z).

(** [subprocess.run(argv, check=True, ...)]: the command exits with status
    zero and the given standard output (its bytes, one number each), or with
    another status, which [check=True] turns into [CalledProcessError];
    [text] is what [str(error)] renders. *)
Inductive completed : Type :=
| ExitZero (stdout : str)
| ExitNonZero (text : str).

(** [json.loads(stdout)] on the bytes a command printed: the value read,
    or one of the two errors it raises, [UnicodeDecodeError] for bytes that
    do not decode and [json.JSONDecodeError] for text that is not a JSON
    document. *)
Inductive loaded : Type :=
| Loaded (v : pyobj)
| NotUnicode
| NotJson.

Record env : Type := mkEnv {
  GITHUB_TOKEN : option str;              (* os.environ.get("GITHUB_TOKEN") *)
  subprocess_run : list str -> completed;
  os_listdir : str -> option (list str);  (* None: no such directory *)
  file_read : str -> option str;          (* None: no such file *)
  json_loads : str -> loaded
}.

(** What the process does to the outside, in order. *)
Inductive event : Type :=
| Stdout (line : str)            (* print(line) *)
| Stderr (line : str)            (* print(line, file=sys.stderr) *)
| Prompt (text : str)            (* input(text) *)
| Spawn (argv : list str).       (* subprocess.run(argv, ...) *)

(** The module's globals, the lines the operator will type, and the events
    so far. *)
Record state : Type := mkState {
  is_test : option str;
  version_number : option str;
  stdin : list str;
  trace : list event
}.

Inductive outcome (A : Type) : Type :=
| Return (a : A)
| Raise (e : exn).
Arguments Return {A} a.
Arguments Raise {A} e.

Definition M (A : Type) : Type := env -> state -> outcome A * state.

Definition ret {A} (a : A) : M A := fun _ s => (Return a, s).

Definition bind {A B} (m : M A) (k : A -> M B) : M B :=
  fun e s =>
    match m e s with
    | (Return a, s') => k a e s'
    | (Raise x, s') => (Raise x, s')
    end.

Notation "x <- m ;; k" := (bind m (fun x => k))
  (at level 61, m at next level, right associativity).
Notation "m ;;; k" := (bind m (fun _ => k))
  (at level 61, right associativity).

Definition raise {A} (x : exn) : M A := fun _ s => (Raise x, s).

(** The state after one more event. *)
Definition log (ev : event) (s : state) : state :=
  mkState (is_test s) (version_number s) (stdin s) (trace s ++ [ev]).

Definition emit (ev : event) : M unit := fun _ s => (Return tt, log ev s).

Definition print (line : str) : M unit := emit (Stdout line).
Definition eprint (line : str) : M unit := emit (Stderr line).

(** [input(text)]: shows the prompt and takes the next line typed; at the
    end of the input it raises [EOFError]. *)
Definition input (text : str) : M str :=
  fun _ s =>
    let tr := trace s ++ [Prompt text] in
    match stdin s with
    | line :: rest => (Return line, mkState (is_test s) (version_number s) rest tr)
    | [] => (Raise EOFError, mkState (is_test s) (version_number s) [] tr)
    end.

(** [subprocess.run(argv, check=True)]; the result is the standard output
    ([capture_output=True] reads it, the other calls drop it). *)
Definition run (argv : list str) : M str :=
  emit (Spawn argv) ;;;
  fun e s =>
    match subprocess_run e argv with
    | ExitZero out => (Return out, s)
    | ExitNonZero text => (Raise (CalledProcessError text), s)
    end.

Definition listdir (path : str) : M (list str) :=
  fun e s =>
    match os_listdir e path with
    | Some names => (Return names, s)
    | None => (Raise (FileNotFoundError path), s)
    end.

Definition read_text (path : str) : M str :=
  fun e s =>
    match file_read e path with
    | Some text => (Return text, s)
    | None => (Raise (FileNotFoundError path), s)
    end.

Definition get_token : M (option str) := fun e s => (Return (GITHUB_TOKEN e), s).
Definition get_is_test : M (option str) := fun _ s => (Return (is_test s), s).
Definition get_version_number : M (option str) :=
  fun _ s => (Return (version_number s), s).
Definition set_is_test (v : str) : M unit :=
  fun _ s => (Return tt, mkState (Some v) (version_number s) (stdin s) (trace s)).
Definition set_version_number (v : str) : M unit :=
  fun _ s => (Return tt, mkState (is_test s) (Some v) (stdin s) (trace s)).

(** [for x in xs: body(x)] *)
Fixpoint for_each {A} (xs : list A) (body : A -> M unit) : M unit :=
  match xs with
  | [] => ret tt
  | x :: xs' => body x ;;; for_each xs' body
  end.

(** How an f-string renders a global that holds a string or [None]. *)
Definition fmt (v : option str) : str :=
  match v with
  | Some s => s
  | None => py "None"
  end.

(** ** The script *)

Definition add_git_tag_for_version (version : str) : M unit :=
  run [py "git"; py "tag"; py "-a"; version; py "-m"; version] ;;;
  print (py "Version " ++ version ++ py " tag added successfully.").

Definition remove_previous_dist : M unit :=
  run [py "rm"; py "-rf"; py "dist/"] ;;;
  print (py "Previous dist folder removed successfully.").

Definition create_build : M unit :=
  run [py "python"; py "-m"; py "build"] ;;;
  print (py "Build created successfully.").

Definition twine_upload : list str := [py "twine"; py "upload"; py "dist/*"].
Definition twine_upload_test : list str :=
  [py "twine"; py "upload"; py "--repository"; py "testpypi"; py "dist/*"].
Definition git_push_tags : list str :=
  [py "git"; py "push"; py "--tags"; py "origin"; py "master"].

Definition upload_build_to_pypi : M unit :=
  t <- get_is_test ;;
  match t with
  | Some a => if str_eqb a (py "n") then run twine_upload ;;; ret tt
              else run twine_upload_test ;;; ret tt
  | None => run twine_upload_test ;;; ret tt
  end.

Definition push_git_tags : M unit := run git_push_tags ;;; ret tt.

Definition verify_prompt : str := py "Does the build look correct? (y/n): ".
Definition count_warning : str :=
  py "WARNING: dist folder contains incorrect number of files.".
Definition not_verified : exn :=
  Exception (py "Could not verify. Build was not uploaded.").

Definition ls_dist : list str := [py "ls"; py "-l"; py "dist/"].
Definition tar_list (directory : str) : list str :=
  [py "tar"; py "tvf"; py "dist/" ++ directory].
Definition build_verified : str := py "Build verified successfully.".

Definition verify_build : M unit :=
  names <- listdir (py "dist") ;;
  (if Nat.eqb (List.length names) 2 then ret tt else eprint count_warning) ;;;
  print (py "Contents of dist folder:") ;;;
  run ls_dist ;;;
  print (py "Contents of tar files in dist folder:") ;;;
  names' <- listdir (py "dist") ;;
  for_each names'
    (fun directory => run (tar_list directory) ;;; ret tt) ;;;
  confirmation <- input verify_prompt ;;
  if str_eqb confirmation (py "y") then
    print build_verified ;;;
    upload_build_to_pypi ;;;
    push_git_tags
  else raise not_verified.

(** [try: body except subprocess.CalledProcessError as error: handler] *)
Definition try_except_called_process_error {A}
    (body : M A) (handler : str -> M A) : M A :=
  fun e s =>
    match body e s with
    | (Raise (CalledProcessError text), s') => handler text e s'
    | r => r
    end.

(** [d.get(key)] on the items of a dict (one binding per key). *)
Fixpoint dict_get (key : str) (items : list (str * pyobj)) : option pyobj :=
  match items with
  | [] => None
  | (k, v) :: items' => if str_eqb k key then Some v else dict_get key items'
  end.

(** [obj[key]] for a string key. *)
Definition subscript (obj : pyobj) (key : str) : M pyobj :=
  match obj with
  | PyDict items =>
      match dict_get key items with
      | Some v => ret v
      | None => raise (KeyError key)
      end
  | _ => raise TypeError
  end.

Definition loads (text : str) : M pyobj :=
  fun e s =>
    match json_loads e text with
    | Loaded v => (Return v, s)
    | NotUnicode => (Raise UnicodeDecodeError, s)
    | NotJson => (Raise JSONDecodeError, s)
    end.

Definition curl_post (token : option str) (url payload : str) : list str :=
  [py "curl"; py "-L"; py "-X"; py "POST";
   py "-H"; py "Accept: application/vnd.github+json";
   py "-H"; py "Authorization: Bearer " ++ fmt token;
   py "-H"; py "X-GitHub-Api-Version: 2022-11-28";
   url; py "-d"; payload].

Definition generate_notes_url : str :=
  py "https://api.github.com/repos/ekcorso/releasetestrepo2/releases/generate-notes".
Definition releases_url : str :=
  py "https://api.github.com/repos/ekcorso/releasetestrepo2/releases".

Definition generate_notes_payload (v : option str) : str :=
  py "{" ++ [DQUOTE] ++ py "tag_name" ++ [DQUOTE] ++ py ":" ++ [DQUOTE]
  ++ fmt v ++ [DQUOTE] ++ py "}".

Definition generate_failed (text : str) : str :=
  py "WARNING: Failed to generate release notes from Github: " ++ text.

(** The parameter is not used: the tag name sent is the global. *)
Definition generate_github_release_notes_body (version : option str) : M pyobj :=
  try_except_called_process_error
    (token <- get_token ;;
     v <- get_version_number ;;
     out <- run (curl_post token generate_notes_url (generate_notes_payload v)) ;;
     parsed_json <- loads out ;;
     body <- subscript parsed_json (py "body") ;;
     ret body)
    (fun error => eprint (generate_failed error) ;;; ret (PyStr [])).

Definition url_parse_failed : str :=
  py "WARNING: Failed to parse release notes URL from GitHub response.".

Definition compile (dotall : bool) (pattern : str) : M (list node) :=
  match re_compile dotall pattern with
  | Some ns => ret ns
  | None => raise ReError
  end.

(** The result is [match.group(1)], which Python lets be [None]. *)
Definition get_release_notes_url (body : pyobj) : M (option str) :=
  url_pattern <- compile false url_pattern_source ;;
  match body with
  | PyStr text =>
      match re_search url_pattern text with
      | Some m => ret (group1 m)
      | None => eprint url_parse_failed ;;; ret (Some [])
      end
  | _ => raise TypeError
  end.

Definition changelog_parse_failed (release_notes_url : option str) : str :=
  py "WARNING: Failed to parse changelog release notes. Manually copy this version's notes from the CHANGELOG.md file to "
  ++ fmt release_notes_url ++ py ".".

Definition get_changelog_release_notes (release_notes_url : option str) : M str :=
  changelog_text <- read_text (py "CHANGELOG.md") ;;
  v <- get_version_number ;;
  match v with
  | None => raise TypeError
  | Some version =>
      pattern <- compile true (changelog_pattern_source version) ;;
      match re_search pattern changelog_text with
      | Some m => ret (strip (fmt (group1 m)))
      | None => eprint (changelog_parse_failed release_notes_url) ;;; ret []
      end
  end.

(** [changelog_notes + "\n\n**Full Changelog**: " + release_notes_url] *)
Definition full_release_notes (changelog_notes release_notes_url : str) : str :=
  changelog_notes ++ ([NL; NL] ++ py "**Full Changelog**: ") ++ release_notes_url.

Definition create_release_notes_body : M str :=
  v <- get_version_number ;;
  github_release_body <- generate_github_release_notes_body v ;;
  release_notes_url <- get_release_notes_url github_release_body ;;
  changelog_notes <- get_changelog_release_notes release_notes_url ;;
  match release_notes_url with
  | Some url => ret (full_release_notes changelog_notes url)
  | None => raise TypeError
  end.

(** [release_body.replace("\n", "\\n")] *)
Definition escape_newlines (release_body : str) : str :=
  replace [NL] [BACKSLASH; 110] release_body.

Definition release_payload (v : option str) (release_body : str) : str :=
  py "{" ++ [DQUOTE] ++ py "tag_name" ++ [DQUOTE] ++ py ":" ++ [DQUOTE] ++ fmt v
  ++ [DQUOTE] ++ py "," ++ [DQUOTE] ++ py "name" ++ [DQUOTE] ++ py ":" ++ [DQUOTE]
  ++ fmt v ++ [DQUOTE] ++ py "," ++ [DQUOTE] ++ py "body" ++ [DQUOTE] ++ py ":"
  ++ [DQUOTE] ++ release_body ++ [DQUOTE] ++ py "," ++ [DQUOTE] ++ py "draft"
  ++ [DQUOTE] ++ py ":true," ++ [DQUOTE] ++ py "prerelease" ++ [DQUOTE]
  ++ py ":false}".

Definition release_unconfirmed : str :=
  py "WARNING: There may have been an error creating this release. Visit https://github.com/john-kurkowski/tldextract/releases to confirm release was created.".

Definition is_str (s : str) (v : pyobj) : bool :=
  match v with
  | PyStr x => str_eqb x s
  | _ => false
  end.

Definition create_github_release_draft : M unit :=
  release_body <- create_release_notes_body ;;
  token <- get_token ;;
  v <- get_version_number ;;
  out <- run (curl_post token releases_url
                (release_payload v (escape_newlines release_body))) ;;
  parsed_json <- loads out ;;
  match parsed_json with
  | PyDict items =>
      match dict_get (py "html_url") items with
      | Some (PyStr html_url) => print (py "Release created successfully: " ++ html_url)
      | Some _ => raise TypeError
      | None => eprint release_unconfirmed
      end
  | PyList items =>
      if existsb (is_str (py "html_url")) items then raise TypeError
      else eprint release_unconfirmed
  | PyStr text =>
      if occurs (py "html_url") text then raise TypeError
      else eprint release_unconfirmed
  | _ => raise TypeError
  end.

Definition test_prompt : str := py "Is this a test release? (y/n): ".
Definition invalid_input : str := py "Invalid input. Please enter 'y' or 'n'.".

Definition yes_or_no (answer : str) : bool :=
  str_eqb answer (py "y") || str_eqb answer (py "n").

(** [while is_test not in ["y", "n"]: print(...); is_test = input(...)],
    over the lines still to be typed. *)
Fixpoint ask_until_yes_or_no (lines : list str) (answer : str)
    (v : option str) (tr : list event) : outcome unit * state :=
  if yes_or_no answer then (Return tt, mkState (Some answer) v lines tr)
  else
    let tr' := tr ++ [Stdout invalid_input; Prompt test_prompt] in
    match lines with
    | [] => (Raise EOFError, mkState (Some answer) v [] tr')
    | line :: rest => ask_until_yes_or_no rest line v tr'
    end.

Definition token_missing : str := py "GITHUB_TOKEN environment variable not set.".

(** [not GITHUB_TOKEN]: the variable is unset or empty. *)
Definition falsy (token : option str) : bool :=
  match token with
  | None | Some [] => true
  | Some (_ :: _) => false
  end.

Definition starting : str := py "Starting the release process...".
Definition checking : str := py "Checking for github token environment variable...".

Definition main : M unit :=
  print starting ;;;
  print checking ;;;
  token <- get_token ;;
  (if falsy token
   then print token_missing ;;; raise (SystemExit 1)
   else print (py "GITHUB_TOKEN environment variable is good to go.")) ;;;
  answer <- input test_prompt ;;
  (fun _ s => ask_until_yes_or_no (stdin s) answer (version_number s) (trace s)) ;;;
  version <- input (py "Enter the version number: ") ;;
  set_version_number version ;;;
  add_git_tag_for_version version ;;;
  remove_previous_dist ;;;
  create_build ;;;
  verify_build ;;;
  create_github_release_draft.

(** The status the interpreter exits with. *)
Definition exit_status {A} (o : outcome A) : Z :=
  match o with
  | Return _ => 0%Z
  | Raise (SystemExit code) => code
  | Raise _ => 1%Z
  end.

(** Any [Spawn] in a list of events. *)
Definition is_spawn (ev : event) : bool :=
  match ev with
  | Spawn _ => true
  | _ => false
  end.

(** The nodes of a pattern that is a literal text. *)
Definition literals (p : str) : list node := map (fun c => One (Literal c)) p.

(** The compiled pattern of [get_changelog_release_notes]. *)
Definition changelog_nodes (version : str) : list node :=
  literals (py "## ") ++ literals version
  ++ [MaxRepeat (CharSet true [NL]); GroupOpen; MinRepeat (AnyChar true); GroupClose]
  ++ literals (py "## ").

(** The compiled pattern of [get_release_notes_url]. *)
Definition url_nodes : list node :=
  literals (py "**Full Changelog**: ")
  ++ [GroupOpen; MaxRepeat (AnyChar false); GroupClose; AtEnd].

(** The text from the first newline on: what follows the rest of a line. *)
Fixpoint skip_line (s : str) : str :=
  match s with
  | c :: s' => if c =? NL then s else skip_line s'
  | [] => []
  end.

(** The text up to the first newline. *)
Fixpoint take_line (s : str) : str :=
  match s with
  | c :: s' => if c =? NL then [] else c :: take_line s'
  | [] => []
  end.

(** ** Vocabulary of the statements *)

(** The state after more events. *)
Definition logs (evs : list event) (s : state) : state :=
  mkState (is_test s) (version_number s) (stdin s) (trace s ++ evs).

(** The state after more events and with [rest] left to be typed. *)
Definition extend (evs : list event) (rest : list str) (s : state) : state :=
  mkState (is_test s) (version_number s) rest (trace s ++ evs).

(** The command exits with status zero. *)
Definition exits_zero (e : env) (argv : list str) : Prop :=
  exists out, subprocess_run e argv = ExitZero out.

(** The upload command [upload_build_to_pypi] runs. *)
Definition upload_command (t : option str) : list str :=
  match t with
  | Some a => if str_eqb a (py "n") then twine_upload else twine_upload_test
  | None => twine_upload_test
  end.

(** What [verify_build] does up to and including its question. *)
Definition gate_events (names : list str) : list event :=
  (if Nat.eqb (List.length names) 2 then [] else [Stderr count_warning])
  ++ [Stdout (py "Contents of dist folder:"); Spawn ls_dist;
      Stdout (py "Contents of tar files in dist folder:")]
  ++ map (fun directory => Spawn (tar_list directory)) names
  ++ [Prompt verify_prompt].

(** A changelog with two sections, and an environment around it: every
    command exits with status zero and prints [stdout], [dist] holds the two
    distributions, and [json.loads] reads [stdout] as [response]. *)
Definition sample_changelog : str := py "## 2.0.0
A
## 1.0.0
B".

Definition sample_env (token : option str) (stdout : str) (response : pyobj) : env :=
  mkEnv token
        (fun _ => ExitZero stdout)
        (fun _ => Some [py "pkg-1.0.0.tar.gz"; py "pkg-1.0.0-py3-none-any.whl"])
        (fun _ => Some sample_changelog)
        (fun text => if str_eqb text stdout then Loaded response else NotJson).

(** The reply of the hosted API to a request it refuses: an object with a
    message and no [body]. *)
Definition not_found_stdout : str :=
  py "{" ++ [DQUOTE] ++ py "message" ++ [DQUOTE] ++ py ":" ++ [DQUOTE]
  ++ py "Not Found" ++ [DQUOTE] ++ py "}".
Definition not_found_json : pyobj := PyDict [(py "message", PyStr (py "Not Found"))].

(** A reply of the hosted API with generated notes, as printed and as
    [json.loads] reads it. *)
Definition sample_notes_stdout : str :=
  py "{" ++ [DQUOTE] ++ py "body" ++ [DQUOTE] ++ py ":" ++ [DQUOTE]
  ++ py "What's Changed\n**Full Changelog**: https://x" ++ [DQUOTE] ++ py "}".
Definition sample_notes_json : pyobj :=
  PyDict [(py "body", PyStr (py "What's Changed
**Full Changelog**: https://x"))].

(** The command [generate_github_release_notes_body] runs. *)
Definition generate_notes_command (e : env) (s : state) : list str :=
  curl_post (GITHUB_TOKEN e) generate_notes_url (generate_notes_payload (version_number s)).

(** The command [create_github_release_draft] runs for a notes text. *)
Definition release_command (e : env) (s : state) (release_body : str) : list str :=
  curl_post (GITHUB_TOKEN e) releases_url
    (release_payload (version_number s) (escape_newlines release_body)).

Definition start (version : option str) (typed : list str) : state :=
  mkState None version typed [].

(** The lines and commands of [main], by stage. *)
Definition token_ok : str := py "GITHUB_TOKEN environment variable is good to go.".
Definition version_prompt : str := py "Enter the version number: ".
Definition git_tag (version : str) : list str :=
  [py "git"; py "tag"; py "-a"; version; py "-m"; version].
Definition rm_dist : list str := [py "rm"; py "-rf"; py "dist/"].
Definition python_build : list str := [py "python"; py "-m"; py "build"].

(** The first question, asked once more after each answer of [bad]. *)
Definition asking (bad : list str) : list event :=
  Prompt test_prompt
  :: flat_map (fun _ : str => [Stdout invalid_input; Prompt test_prompt]) bad.

(** [main] up to and including the question for the version. *)
Definition prelude_events (bad : list str) : list event :=
  [Stdout starting; Stdout checking; Stdout token_ok] ++ asking bad
  ++ [Prompt version_prompt].

Definition tagged_events (version : str) : list event :=
  [Spawn (git_tag version);
   Stdout (py "Version " ++ version ++ py " tag added successfully.")].

Definition cleaned_events : list event :=
  [Spawn rm_dist; Stdout (py "Previous dist folder removed successfully.")].

Definition built_events : list event :=
  [Spawn python_build; Stdout (py "Build created successfully.")].

(** What [verify_build] does before its first [tar] command. *)
Definition listing_events (names : list str) : list event :=
  (if Nat.eqb (List.length names) 2 then [] else [Stderr count_warning])
  ++ [Stdout (py "Contents of dist folder:"); Spawn ls_dist;
      Stdout (py "Contents of tar files in dist folder:")].

Definition release_created (html_url : str) : str :=
  py "Release created successfully: " ++ html_url.

(** An answer the first question does not accept. *)
Definition rejected (answer : str) : Prop := yes_or_no answer = false.

(** An environment in which every command ends the same way and nothing
    printed is a JSON document. *)
Definition failing_env_with (result : completed) : env :=
  mkEnv (Some (py "t"))
        (fun _ => result)
        (fun _ => Some [py "pkg-1.0.0.tar.gz"; py "pkg-1.0.0-py3-none-any.whl"])
        (fun _ => Some sample_changelog)
        (fun _ => NotJson).

(** A reply of the hosted API that holds generated notes and the address
    of a release, as [json.loads] reads it. *)
Definition sample_release_json : pyobj :=
  PyDict [(py "body", PyStr (py "What's Changed
**Full Changelog**: https://x"));
          (py "html_url", PyStr (py "https://github.com/o/r/releases/1"))].

(** A reply whose [body] is [null], as printed and as [json.loads] reads it. *)
Definition null_body_stdout : str :=
  py "{" ++ [DQUOTE] ++ py "body" ++ [DQUOTE] ++ py ":null}".
Definition null_body_json : pyobj := PyDict [(py "body", PyNone)].

(** [i] is where a line of [s] starts: the start of the text, or right
    after a newline. *)
Definition starts_line (s : str) (i : nat) : bool :=
  match i with
  | O => true
  | S j =>
      match nth_error s j with
      | Some c => c =? NL
      | None => false
      end
  end.

(** Some line of [s] begins with [p]; [at_start] tells whether [s] itself
    starts a line. *)
Fixpoint begins_a_line_from (p s : str) (at_start : bool) : bool :=
  (at_start && startswith s p)
  || match s with
     | [] => false
     | c :: s' => begins_a_line_from p s' (c =? NL)
     end.

Definition begins_a_line (p s : str) : bool := begins_a_line_from p s true.

(** A changelog that names the version "1.0.0" in a sentence and has no
    heading for it, and an environment that holds a given changelog. *)
Definition mention_changelog : str := py "Notes on ## 1.0.0
foo
## 0.9.0
bar".

Definition changelog_env (doc : str) : env :=
  mkEnv None (fun _ => ExitZero []) (fun _ => None) (fun _ => Some doc)
        (fun _ => NotJson).

(** [a == b] on argument lists. *)
Fixpoint argv_eqb (a b : list str) : bool :=
  match a, b with
  | [], [] => true
  | x :: a', y :: b' => str_eqb x y && argv_eqb a' b'
  | _, _ => false
  end.

(** An environment in which the command [argv] exits with status [1] and
    every other command with status zero, printing nothing. *)
Definition only_fails (argv : list str) : env :=
  mkEnv (Some (py "t"))
        (fun a => if argv_eqb a argv then ExitNonZero (py "exit status 1")
                  else ExitZero [])
        (fun _ => Some [py "pkg-1.0.0.tar.gz"; py "pkg-1.0.0-py3-none-any.whl"])
        (fun _ => Some sample_changelog)
        (fun _ => NotJson).

(** An environment in which every command exits with status [1]. *)
Definition failing_env (token : option str) : env :=
  mkEnv token
        (fun _ => ExitNonZero (py "exit status 1"))
        (fun _ => Some [py "pkg-1.0.0.tar.gz"; py "pkg-1.0.0-py3-none-any.whl"])
        (fun _ => Some sample_changelog)
        (fun _ => NotJson).

(** ** Facts about strings *)

Lemma str_eqb_eq (a b : str) : str_eqb a b = true <-> a = b.
Proof.
  revert b; induction a as [|x a IH]; intros [|y b]; simpl; split;
    try congruence; try reflexivity.
  - intros H. apply andb_true_iff in H as [Hxy Hab].
    apply N.eqb_eq in Hxy. apply IH in Hab. congruence.
  - intros H. injection H as -> ->. rewrite N.eqb_refl. simpl. now apply IH.
Qed.

Lemma str_eqb_neq (a b : str) : str_eqb a b = false <-> a <> b.
Proof.
  rewrite <- str_eqb_eq. destruct (str_eqb a b); split; congruence.
Qed.

Lemma strip_prefix_app (p s : str) : strip_prefix p (p ++ s) = Some s.
Proof.
  induction p as [|x p IH]; simpl; [reflexivity|].
  now rewrite N.eqb_refl.
Qed.

Lemma strip_prefix_Some (p s r : str) : strip_prefix p s = Some r -> s = p ++ r.
Proof.
  revert s; induction p as [|x p IH]; intros s; simpl.
  - congruence.
  - destruct s as [|y s]; [discriminate|].
    destruct (x =? y) eqn:E; [|discriminate].
    apply N.eqb_eq in E. subst y. intros H. now rewrite (IH _ H).
Qed.

Lemma startswith_app (p s : str) : startswith (p ++ s) p = true.
Proof. unfold startswith. now rewrite strip_prefix_app. Qed.

Lemma startswith_true (s p : str) :
  startswith s p = true -> exists r, s = p ++ r.
Proof.
  unfold startswith. destruct (strip_prefix p s) as [r|] eqn:E; [|discriminate].
  intros _. exists r. now apply strip_prefix_Some.
Qed.

Lemma find_None (p s : str) :
  find p s = None -> forall a b, s <> a ++ p ++ b.
Proof.
  induction s as [|c s IH]; simpl.
  - destruct (startswith [] p) eqn:E; [discriminate|]. intros _ a b H.
    destruct a; simpl in H.
    + rewrite H in E. now rewrite startswith_app in E.
    + discriminate.
  - destruct (startswith (c :: s) p) eqn:E; [discriminate|].
    destruct (find p s) eqn:F; [discriminate|]. intros _ a b H.
    destruct a as [|x a]; simpl in H.
    + rewrite H in E. now rewrite startswith_app in E.
    + injection H as _ H. exact (IH eq_refl a b H).
Qed.

Lemma find_app (p a b : str) : exists i, find p (a ++ p ++ b) = Some i /\ (i <= List.length a)%nat.
Proof.
  induction a as [|c a (i & Hi & Hle)]; simpl.
  - exists 0%nat. split; [|lia].
    destruct (p ++ b) eqn:E; simpl; rewrite <- E, startswith_app; reflexivity.
  - destruct (startswith (c :: a ++ p ++ b) p).
    + exists 0%nat. split; [reflexivity|lia].
    + rewrite Hi. exists (S i). split; [reflexivity|lia].
Qed.

Lemma occurs_false (p s : str) :
  occurs p s = false <-> forall a b, s <> a ++ p ++ b.
Proof.
  unfold occurs. split.
  - destruct (find p s) eqn:E; [discriminate|]. intros _. now apply find_None.
  - intros H. destruct (find p s) eqn:E; [|reflexivity].
    exfalso. revert n E H.
    induction s as [|c s IH]; simpl; intros n.
    + destruct (startswith [] p) eqn:S0; [|discriminate].
      intros _ H. apply startswith_true in S0 as [r Hr]. apply (H [] r). exact Hr.
    + destruct (startswith (c :: s) p) eqn:S0.
      * intros _ H. apply startswith_true in S0 as [r Hr]. apply (H [] r). exact Hr.
      * destruct (find p s) eqn:F; [|discriminate]. intros _ H.
        apply (IH n0 eq_refl). intros a b Hab. apply (H (c :: a) b).
        simpl. now rewrite Hab.
Qed.

Lemma find_Some_split (p s : str) (i : nat) :
  find p s = Some i ->
  s = firstn i s ++ p ++ skipn (i + List.length p) s /\ (i <= List.length s)%nat.
Proof.
  revert i; induction s as [|c s IH]; simpl; intros i.
  - destruct (startswith [] p) eqn:E; [|discriminate].
    intros H. injection H as <-. apply startswith_true in E as [r Hr].
    destruct p; [|discriminate]. simpl. split; [reflexivity|lia].
  - destruct (startswith (c :: s) p) eqn:E.
    + intros H. injection H as <-. apply startswith_true in E as [r Hr].
      simpl. rewrite Hr at 1. split; [|lia].
      f_equal. rewrite Hr. change (0 + List.length p)%nat with (List.length p).
      rewrite skipn_app, skipn_all, Nat.sub_diag. reflexivity.
    + destruct (find p s) as [j|] eqn:F; [|discriminate].
      intros H. injection H as <-. destruct (IH j eq_refl) as [Hs Hj].
      simpl. split; [|lia]. f_equal. exact Hs.
Qed.

(** No occurrence starts before the one [find] returns. *)
Lemma find_Some_first (p s : str) (i : nat) :
  find p s = Some i -> forall a b, s = a ++ p ++ b -> (i <= List.length a)%nat.
Proof.
  revert i; induction s as [|c s IH]; simpl; intros i.
  - destruct (startswith [] p); [|discriminate]. intros H. injection H as <-. lia.
  - destruct (startswith (c :: s) p) eqn:E.
    + intros H. injection H as <-. lia.
    + destruct (find p s) as [j|] eqn:F; [|discriminate].
      intros H a b Hab. injection H as <-.
      destruct a as [|x a]; simpl in Hab.
      * rewrite Hab, startswith_app in E. discriminate.
      * injection Hab as _ Hab. specialize (IH j eq_refl a b Hab). simpl. lia.
Qed.

Lemma occurs_skipn (p s : str) (n : nat) :
  occurs p s = false -> occurs p (skipn n s) = false.
Proof.
  rewrite !occurs_false. intros H a b Hab.
  apply (H (firstn n s ++ a) b).
  rewrite <- (firstn_skipn n s) at 1. rewrite Hab. now rewrite <- app_assoc.
Qed.

(** ** Facts about [re.escape] and [re.compile] *)

Lemma special_is_literal (c : char) :
  is_special c = true -> escape_code c = Some c.
Proof.
  unfold is_special. intros H. apply existsb_exists in H as (x & Hin & Hx).
  apply N.eqb_eq in Hx. subst x. simpl in Hin.
  repeat (destruct Hin as [<-|Hin]; [reflexivity|]). destruct Hin.
Qed.

Lemma parse_step_plain (dotall : bool) (st : pstate) (c : char) :
  p_mode st = Normal -> is_special c = false ->
  parse_step dotall st c = Some (push (One (Literal c)) st).
Proof.
  intros Hm H. unfold parse_step. rewrite Hm.
  unfold is_special in H. simpl in H.
  repeat (apply orb_false_iff in H; destruct H as [?E H]).
  repeat match goal with
         | E : (c =? _) = false |- _ => rewrite ?E; clear E
         end.
  reflexivity.
Qed.

Lemma parse_from_escaped_char (dotall : bool) (st : pstate) (c : char) (rest : str) :
  p_mode st = Normal ->
  parse_from dotall st ((if is_special c then [BACKSLASH; c] else [c]) ++ rest)
  = parse_from dotall (push (One (Literal c)) st) rest.
Proof.
  intros Hm. destruct (is_special c) eqn:E.
  - change ([BACKSLASH; c] ++ rest) with (BACKSLASH :: c :: rest).
    cbn [parse_from]. unfold parse_step at 1. rewrite Hm.
    change (BACKSLASH =? 92) with true. cbv iota.
    unfold parse_step. cbn [p_mode]. rewrite (special_is_literal c E).
    reflexivity.
  - simpl. now rewrite (parse_step_plain dotall st c Hm E).
Qed.

(** Escaping and then parsing a text gives that text, as literals. *)
Lemma parse_from_escape (dotall : bool) (v : str) :
  forall st rest, p_mode st = Normal ->
  parse_from dotall st (re_escape v ++ rest)
  = parse_from dotall (mkP (rev (literals v) ++ p_out st) Normal (p_group st)) rest.
Proof.
  induction v as [|c v IH]; intros st rest Hm.
  - simpl. destruct st as [out m g]. simpl in *. now subst m.
  - simpl re_escape. rewrite <- app_assoc.
    rewrite parse_from_escaped_char by exact Hm.
    rewrite IH by reflexivity. simpl. now rewrite <- app_assoc.
Qed.

Lemma compile_changelog_pattern (version : str) :
  re_compile true (changelog_pattern_source version) = Some (changelog_nodes version).
Proof.
  unfold re_compile, changelog_pattern_source.
  change (py "## " ++ re_escape version ++ py "[^\n]*(.*?)## ")
    with (35 :: 35 :: 32 :: re_escape version ++ py "[^\n]*(.*?)## ").
  cbn [parse_from]. cbn.
  rewrite parse_from_escape by reflexivity. cbn.
  unfold changelog_nodes. rewrite !rev_app_distr, rev_involutive.
  cbn. rewrite <- !app_assoc. reflexivity.
Qed.

Lemma compile_url_pattern : re_compile false url_pattern_source = Some url_nodes.
Proof. reflexivity. Qed.

(** ** Facts about the matcher *)

Lemma match_here_max (a : atom) (rest : list node) (s : str) (g : capture) :
  match_here (MaxRepeat a :: rest) s g
  = match s with
    | c :: s' =>
        if atom_matches a c then
          match match_here (MaxRepeat a :: rest) s' (consume g c) with
          | Some r => Some r
          | None => match_here rest s g
          end
        else match_here rest s g
    | [] => match_here rest s g
    end.
Proof. destruct s; reflexivity. Qed.

Lemma match_here_min (a : atom) (rest : list node) (s : str) (g : capture) :
  match_here (MinRepeat a :: rest) s g
  = match match_here rest s g with
    | Some r => Some r
    | None =>
        match s with
        | c :: s' =>
            if atom_matches a c
            then match_here (MinRepeat a :: rest) s' (consume g c)
            else None
        | [] => None
        end
    end.
Proof. destruct s; reflexivity. Qed.

Lemma consume_all_unset (p : str) : fold_left consume p Unset = Unset.
Proof. induction p; simpl; auto. Qed.

Lemma consume_all_captured (p text : str) :
  fold_left consume p (Captured text) = Captured text.
Proof. induction p; simpl; auto. Qed.

Lemma consume_all_capturing (p text : str) :
  fold_left consume p (Capturing text) = Capturing (text ++ p).
Proof.
  revert text; induction p as [|c p IH]; intros text; simpl.
  - now rewrite app_nil_r.
  - rewrite IH. now rewrite <- app_assoc.
Qed.

(** A literal text matches exactly where the subject starts with it. *)
Lemma match_here_literals (p : str) (ns : list node) :
  forall s g,
  match_here (literals p ++ ns) s g
  = match strip_prefix p s with
    | Some r => match_here ns r (fold_left consume p g)
    | None => None
    end.
Proof.
  induction p as [|x p IH]; intros s g; [reflexivity|].
  simpl. destruct s as [|c s]; [reflexivity|].
  destruct (x =? c) eqn:E; [|reflexivity].
  apply N.eqb_eq in E. subst c. apply IH.
Qed.

(** A greedy repeat takes a whole run when the rest of the pattern matches
    right after the run. *)
Lemma greedy_run (a : atom) (rest : list node) (u t : str) :
  forall g r,
  forallb (atom_matches a) u = true ->
  (t = [] \/ exists c t', t = c :: t' /\ atom_matches a c = false) ->
  match_here rest t (fold_left consume u g) = Some r ->
  match_here (MaxRepeat a :: rest) (u ++ t) g = Some r.
Proof.
  induction u as [|x u IH]; intros g r Hu Ht Hr.
  - simpl app. simpl in Hr. rewrite match_here_max.
    destruct Ht as [->|(c & t' & -> & Hc)]; [exact Hr|]. now rewrite Hc.
  - simpl in Hu. apply andb_true_iff in Hu as [Hx Hu].
    simpl app. rewrite match_here_max, Hx.
    now rewrite (IH (consume g x) r Hu Ht Hr).
Qed.

(** A greedy repeat fails when the rest of the pattern fails at every
    position it can give back. *)
Lemma greedy_none (a : atom) (rest : list node) (s : str) :
  (forall x y g, s = x ++ y -> match_here rest y g = None) ->
  forall g, match_here (MaxRepeat a :: rest) s g = None.
Proof.
  induction s as [|c s IH]; intros H g; rewrite match_here_max.
  - exact (H [] [] g eq_refl).
  - rewrite IH.
    + destruct (atom_matches a c); exact (H [] (c :: s) g eq_refl).
    + intros x y g' ->. exact (H (c :: x) y g' eq_refl).
Qed.

(** What a successful greedy repeat took, when only the capture's end and
    [$] follow it. *)
Lemma greedy_to_end_inv (a : atom) (s : str) :
  forall text m,
  match_here [MaxRepeat a; GroupClose; AtEnd] s (Capturing text) = Some m ->
  exists u t, s = u ++ t /\ forallb (atom_matches a) u = true
              /\ at_end t = true /\ m = Captured (text ++ u).
Proof.
  assert (Hstop : forall y text m,
             match_here [GroupClose; AtEnd] y (Capturing text) = Some m ->
             at_end y = true /\ m = Captured text).
  { intros y text m. simpl. destruct (at_end y); [|discriminate].
    intros H. injection H as <-. auto. }
  induction s as [|c s IH]; intros text m; rewrite match_here_max.
  - intros H. apply Hstop in H as [He ->]. exists [], []. repeat split; rewrite ?app_nil_r; auto.
  - destruct (atom_matches a c) eqn:Hc.
    + destruct (match_here [MaxRepeat a; GroupClose; AtEnd] s (consume (Capturing text) c))
        as [r|] eqn:E.
      * intros H. injection H as <-. simpl in E.
        apply IH in E as (u & t & -> & Hu & Ht & ->).
        exists (c :: u), t. simpl. rewrite Hc, Hu, <- app_assoc. auto.
      * intros H. apply Hstop in H as [He ->].
        exists [], (c :: s). repeat split; rewrite ?app_nil_r; auto.
    + intros H. apply Hstop in H as [He ->].
      exists [], (c :: s). repeat split; rewrite ?app_nil_r; auto.
Qed.

(** A lazy [.] repeat under [re.DOTALL], followed by the end of the capture
    and a literal text, stops at the first occurrence of the text. *)
Lemma lazy_until_literal (l : str) (s : str) :
  forall text,
  match_here (MinRepeat (AnyChar true) :: GroupClose :: literals l) s (Capturing text)
  = match find l s with
    | Some k => Some (Captured (text ++ firstn k s))
    | None => None
    end.
Proof.
  assert (Hrest : forall y text,
             match_here (GroupClose :: literals l) y (Capturing text)
             = if startswith y l then Some (Captured text) else None).
  { intros y text. simpl. rewrite <- (app_nil_r (literals l)).
    rewrite match_here_literals. unfold startswith.
    destruct (strip_prefix l y); [|reflexivity].
    simpl. now rewrite consume_all_captured. }
  induction s as [|c s IH]; intros text; rewrite match_here_min, Hrest.
  - simpl. destruct (startswith [] l); [|reflexivity]. now rewrite app_nil_r.
  - simpl find. destruct (startswith (c :: s) l).
    + simpl. now rewrite app_nil_r.
    + simpl atom_matches. cbv iota. simpl consume. rewrite IH.
      destruct (find l s); simpl; [|reflexivity]. now rewrite <- app_assoc.
Qed.

Lemma re_search_None (ns : list node) (s : str) :
  (forall a b, s = a ++ b -> match_here ns b Unset = None) ->
  re_search ns s = None.
Proof.
  induction s as [|c s IH]; intros H; simpl.
  - now rewrite (H [] [] eq_refl).
  - rewrite (H [] (c :: s) eq_refl). apply IH.
    intros a b ->. exact (H (c :: a) b eq_refl).
Qed.

(** [search] passes over a prefix no position of which starts a match. *)
Lemma re_search_skip (ns : list node) (pre s : str) :
  (forall a b, pre = a ++ b -> b <> [] -> match_here ns (b ++ s) Unset = None) ->
  re_search ns (pre ++ s) = re_search ns s.
Proof.
  induction pre as [|c pre IH]; intros H; [reflexivity|].
  change ((c :: pre) ++ s) with (c :: pre ++ s).
  simpl re_search.
  change (c :: pre ++ s) with ((c :: pre) ++ s).
  rewrite (H [] (c :: pre) eq_refl) by discriminate.
  apply IH. intros a b -> Hb. exact (H (c :: a) b eq_refl Hb).
Qed.

Lemma re_search_here (ns : list node) (s : str) (m : capture) :
  match_here ns s Unset = Some m -> re_search ns s = Some m.
Proof. intros H. destruct s; simpl; now rewrite H. Qed.

Lemma re_search_Some_inv (ns : list node) (s : str) (m : capture) :
  re_search ns s = Some m ->
  exists a b, s = a ++ b /\ match_here ns b Unset = Some m.
Proof.
  induction s as [|c s IH]; simpl.
  - destruct (match_here ns [] Unset) eqn:E; [|discriminate].
    intros H. injection H as <-. now exists [], [].
  - destruct (match_here ns (c :: s) Unset) eqn:E.
    + intros H. injection H as <-. now exists [], (c :: s).
    + intros H. destruct (IH H) as (a & b & -> & Hm). now exists (c :: a), b.
Qed.

(** ** The two patterns of the script *)

Lemma take_skip_line (s : str) : s = take_line s ++ skip_line s.
Proof.
  induction s as [|c s IH]; [reflexivity|]. simpl.
  destruct (c =? NL); [reflexivity|]. simpl. now rewrite <- IH.
Qed.

Lemma take_line_no_newline (s : str) :
  forallb (atom_matches (CharSet true [NL])) (take_line s) = true.
Proof.
  induction s as [|c s IH]; [reflexivity|]. simpl.
  destruct (c =? NL) eqn:E; [reflexivity|]. simpl. now rewrite E, IH.
Qed.

Lemma skip_line_head (s : str) :
  skip_line s = [] \/
  exists c t, skip_line s = c :: t /\ atom_matches (CharSet true [NL]) c = false.
Proof.
  induction s as [|c s IH]; [now left|]. simpl.
  destruct (c =? NL) eqn:E; [|exact IH].
  right. exists c, s. simpl. now rewrite E.
Qed.

(** What follows the version in the changelog pattern. *)
Lemma changelog_nodes_eq (version : str) :
  changelog_nodes version
  = literals (py "## " ++ version)
    ++ MaxRepeat (CharSet true [NL]) :: GroupOpen
       :: MinRepeat (AnyChar true) :: GroupClose :: literals (py "## ").
Proof.
  unfold changelog_nodes, literals. rewrite map_app, <- app_assoc. reflexivity.
Qed.

Lemma changelog_match_here (version s : str) :
  match_here (changelog_nodes version) s Unset
  = match strip_prefix (py "## " ++ version) s with
    | Some r =>
        match_here (MaxRepeat (CharSet true [NL]) :: GroupOpen
                    :: MinRepeat (AnyChar true) :: GroupClose :: literals (py "## "))
                   r Unset
    | None => None
    end.
Proof.
  rewrite changelog_nodes_eq, match_here_literals.
  destruct (strip_prefix _ s); [|reflexivity]. now rewrite consume_all_unset.
Qed.

(** No [## ] after the heading: the pattern does not match there. *)
Lemma changelog_tail_none (r : str) :
  occurs (py "## ") r = false ->
  match_here (MaxRepeat (CharSet true [NL]) :: GroupOpen
              :: MinRepeat (AnyChar true) :: GroupClose :: literals (py "## "))
             r Unset = None.
Proof.
  intros H. apply greedy_none. intros x y g ->.
  change (match_here (GroupOpen :: ?ns) y g) with (match_here ns y (Capturing [])).
  rewrite lazy_until_literal.
  pose proof (occurs_skipn _ _ (List.length x) H) as Hy.
  rewrite skipn_app, skipn_all, Nat.sub_diag in Hy. simpl in Hy.
  unfold occurs in Hy. now destruct (find (py "## ") y).
Qed.

(** A [## ] after the heading line: the capture runs from the end of the
    heading line to the first such marker. *)
Lemma changelog_tail_some (r : str) (k : nat) :
  find (py "## ") (skip_line r) = Some k ->
  match_here (MaxRepeat (CharSet true [NL]) :: GroupOpen
              :: MinRepeat (AnyChar true) :: GroupClose :: literals (py "## "))
             r Unset = Some (Captured (firstn k (skip_line r))).
Proof.
  intros H. rewrite (take_skip_line r) at 1.
  apply greedy_run.
  - apply take_line_no_newline.
  - apply skip_line_head.
  - rewrite consume_all_unset.
    change (match_here (GroupOpen :: ?ns) ?y Unset) with (match_here ns y (Capturing [])).
    rewrite lazy_until_literal, H. reflexivity.
Qed.

Lemma skipn_split (a p b : str) :
  skipn (List.length a + List.length p) (a ++ p ++ b) = b.
Proof.
  rewrite app_assoc, <- length_app, skipn_app, skipn_all, Nat.sub_diag. reflexivity.
Qed.

(** [search] with the changelog pattern, when no [## ] follows the first
    heading of the version. *)
Lemma changelog_search_none (version doc : str) (i : nat) :
  find (py "## " ++ version) doc = Some i ->
  occurs (py "## ") (skipn (i + List.length (py "## " ++ version)) doc) = false ->
  re_search (changelog_nodes version) doc = None.
Proof.
  intros Hi Hno. apply re_search_None. intros a b Hab.
  rewrite changelog_match_here.
  destruct (strip_prefix (py "## " ++ version) b) as [r|] eqn:E; [|reflexivity].
  apply strip_prefix_Some in E. subst b.
  apply changelog_tail_none.
  pose proof (find_Some_first _ _ _ Hi a r Hab) as Hle.
  pose proof (skipn_split a (py "## " ++ version) r) as Hr.
  rewrite <- Hab in Hr. rewrite <- Hr.
  replace (List.length a + List.length (py "## " ++ version))%nat
    with ((List.length a - i) + (i + List.length (py "## " ++ version)))%nat by lia.
  rewrite <- skipn_skipn. now apply occurs_skipn.
Qed.

(** [search] with the changelog pattern, when the version is nowhere. *)
Lemma changelog_search_absent (version doc : str) :
  occurs (py "## " ++ version) doc = false ->
  re_search (changelog_nodes version) doc = None.
Proof.
  intros H. apply re_search_None. intros a b Hab.
  rewrite changelog_match_here.
  destruct (strip_prefix (py "## " ++ version) b) as [r|] eqn:E; [|reflexivity].
  apply strip_prefix_Some in E. subst b.
  rewrite occurs_false in H. now destruct (H a r).
Qed.

(** [search] with the changelog pattern, when a [## ] follows the heading
    line of the first heading of the version. *)
Lemma changelog_search_some (version doc : str) (i k : nat) :
  find (py "## " ++ version) doc = Some i ->
  find (py "## ") (skip_line (skipn (i + List.length (py "## " ++ version)) doc)) = Some k ->
  re_search (changelog_nodes version) doc
  = Some (Captured
            (firstn k (skip_line (skipn (i + List.length (py "## " ++ version)) doc)))).
Proof.
  intros Hi Hk.
  destruct (find_Some_split _ _ _ Hi) as [Hdoc Hlen].
  set (r := skipn (i + List.length (py "## " ++ version)) doc) in *.
  rewrite Hdoc at 1. rewrite re_search_skip.
  - apply re_search_here.
    change (py "## " ++ version ++ r) with ((py "## " ++ version) ++ r).
    rewrite changelog_match_here, strip_prefix_app.
    exact (changelog_tail_some r k Hk).
  - intros a b Hab Hb. rewrite changelog_match_here.
    destruct (strip_prefix _ _) as [r'|] eqn:E; [|reflexivity].
    exfalso. apply strip_prefix_Some in E.
    assert (Hdoc' : doc = a ++ (py "## " ++ version) ++ r').
    { rewrite Hdoc, Hab, <- app_assoc. f_equal. exact E. }
    pose proof (find_Some_first _ _ _ Hi a r' Hdoc') as Hle.
    assert (List.length (firstn i doc) = i) by (apply firstn_length_le; exact Hlen).
    rewrite Hab, length_app in H. destruct b; [congruence|]. simpl in H. lia.
Qed.

Lemma no_newline_forallb (u : str) :
  ~ In NL u -> forallb (atom_matches (AnyChar false)) u = true.
Proof.
  induction u as [|c u IH]; intros H; [reflexivity|]. simpl.
  destruct (c =? NL) eqn:E.
  - apply N.eqb_eq in E. subst c. exfalso. apply H. now left.
  - simpl. apply IH. intros Hin. apply H. now right.
Qed.

Lemma url_match_here (s : str) :
  match_here url_nodes s Unset
  = match strip_prefix (py "**Full Changelog**: ") s with
    | Some r => match_here [MaxRepeat (AnyChar false); GroupClose; AtEnd] r (Capturing [])
    | None => None
    end.
Proof.
  unfold url_nodes. rewrite match_here_literals.
  destruct (strip_prefix _ s); [|reflexivity]. now rewrite consume_all_unset.
Qed.

(** A match of the URL pattern: the label, a run without a newline, then
    the end of the text or its final newline. *)
Lemma url_match_inv (s : str) (m : capture) :
  match_here url_nodes s Unset = Some m ->
  exists u t, s = py "**Full Changelog**: " ++ u ++ t
              /\ forallb (atom_matches (AnyChar false)) u = true
              /\ at_end t = true /\ m = Captured u.
Proof.
  rewrite url_match_here.
  destruct (strip_prefix _ s) as [r|] eqn:E; [|discriminate].
  apply strip_prefix_Some in E. intros H.
  apply greedy_to_end_inv in H as (u & t & -> & Hu & Ht & ->).
  exists u, t. auto.
Qed.

Lemma url_match_complete (u t : str) :
  ~ In NL u -> at_end t = true ->
  match_here url_nodes (py "**Full Changelog**: " ++ u ++ t) Unset = Some (Captured u).
Proof.
  intros Hu Ht. rewrite url_match_here, strip_prefix_app.
  apply greedy_run.
  - now apply no_newline_forallb.
  - destruct t as [|c [|? ?]]; [now left| |discriminate].
    right. exists c, []. simpl in Ht. simpl. now rewrite Ht.
  - rewrite consume_all_capturing. simpl. now rewrite Ht.
Qed.

(** In a run without a newline that ends the text, or is followed by its
    final newline only, nothing comes after a newline. *)
Lemma nothing_after_newline (x t : str) :
  forallb (atom_matches (AnyChar false)) x = true -> at_end t = true ->
  forall y z, x ++ t = y ++ NL :: z -> z = [].
Proof.
  induction x as [|c x IH]; intros Hx Ht y z H.
  - simpl in H. subst t. destruct y as [|a [|b y]]; simpl in Ht.
    + now destruct z.
    + discriminate.
    + discriminate.
  - simpl in Hx. apply andb_true_iff in Hx as [Hc Hx].
    destruct y as [|a y]; simpl in H.
    + injection H as -> _. discriminate.
    + injection H as _ H. exact (IH Hx Ht y z H).
Qed.

(** [search] with the URL pattern on a text whose last line starts with the
    label: the capture is the rest of that line. *)
Lemma url_search (pre u t : str) :
  pre = [] \/ (exists pre', pre = pre' ++ [NL]) ->
  ~ In NL u -> at_end t = true ->
  re_search url_nodes (pre ++ py "**Full Changelog**: " ++ u ++ t) = Some (Captured u).
Proof.
  intros Hpre Hu Ht. rewrite re_search_skip.
  - apply re_search_here. now apply url_match_complete.
  - intros a b Hab Hb.
    destruct (match_here url_nodes _ Unset) as [m|] eqn:E; [|reflexivity].
    exfalso. apply url_match_inv in E as (u' & t' & Hs & Hu' & Ht' & _).
    assert (HL : forallb (atom_matches (AnyChar false)) (py "**Full Changelog**: ") = true)
      by reflexivity.
    assert (HL0 : py "**Full Changelog**: " <> []) by discriminate.
    set (L := py "**Full Changelog**: ") in *.
    destruct Hpre as [->|[pre' ->]].
    { destruct a; [simpl in Hab; congruence|discriminate]. }
    destruct (exists_last Hb) as (b' & x & ->).
    rewrite app_assoc in Hab. apply app_inj_tail in Hab as [_ <-].
    rewrite <- app_assoc in Hs.
    change ([NL] ++ L ++ u ++ t) with (NL :: L ++ u ++ t) in Hs.
    rewrite (app_assoc L u' t') in Hs.
    assert (Hrun : forallb (atom_matches (AnyChar false)) (L ++ u') = true).
    { now rewrite forallb_app, Hu', HL. }
    pose proof (nothing_after_newline _ _ Hrun Ht' b' _ (eq_sym Hs)) as Hz.
    apply app_eq_nil in Hz as [Hz _]. contradiction.
Qed.

(** ** The release driver *)

Arguments py : simpl never.

Lemma logs_logs (a b : list event) (s : state) :
  logs b (logs a s) = logs (a ++ b) s.
Proof. unfold logs. simpl. now rewrite app_assoc. Qed.

Lemma log_logs (ev : event) (s : state) : log ev s = logs [ev] s.
Proof. reflexivity. Qed.

Lemma run_exits_zero (e : env) (argv : list str) (s : state) :
  exits_zero e argv ->
  exists out, run argv e s = (Return out, logs [Spawn argv] s).
Proof.
  intros [out H]. exists out. unfold run, bind, emit. now rewrite H.
Qed.

Lemma for_each_tar (e : env) (names : list str) :
  (forall d, In d names -> exits_zero e (tar_list d)) ->
  forall s,
  for_each names (fun directory => run (tar_list directory) ;;; ret tt) e s
  = (Return tt, logs (map (fun directory => Spawn (tar_list directory)) names) s).
Proof.
  induction names as [|d names IH]; intros H s.
  - unfold logs. simpl. rewrite app_nil_r. now destruct s.
  - simpl for_each. unfold bind at 1. unfold bind at 1.
    destruct (run_exits_zero e (tar_list d) s (H d (or_introl eq_refl))) as [out ->].
    unfold ret at 1. rewrite IH by (intros d' Hd'; apply H; now right).
    now rewrite logs_logs.
Qed.

(** C6. When the [GITHUB_TOKEN] environment variable is absent, [main]
    prints its two opening lines and the diagnostic
    "GITHUB_TOKEN environment variable not set.", then exits with status 1:
    no command has been run and nothing has been read from the console. *)
Theorem C6_missing_token_exits_first (e : env) (st : state) :
  GITHUB_TOKEN e = None ->
  main e st
  = (Raise (SystemExit 1),
     logs [Stdout starting; Stdout checking; Stdout token_missing] st)
  /\ exit_status (fst (main e st)) = 1%Z
  /\ stdin (snd (main e st)) = stdin st
  /\ (forall ev, In ev [Stdout starting; Stdout checking; Stdout token_missing] ->
                 is_spawn ev = false).
Proof.
  intros H.
  assert (Hmain : main e st
                  = (Raise (SystemExit 1),
                     logs [Stdout starting; Stdout checking; Stdout token_missing] st)).
  { unfold main, bind, print, emit, get_token, raise. rewrite H. simpl.
    rewrite !log_logs, !logs_logs. reflexivity. }
  rewrite Hmain. repeat split.
  intros ev [<-|[<-|[<-|[]]]]; reflexivity.
Qed.

Lemma C6_missing_token_exits_first_witness :
  main (sample_env None [] PyNone) (start None [])
  = (Raise (SystemExit 1),
     logs [Stdout starting; Stdout checking; Stdout token_missing] (start None [])).
Proof.
  exact (proj1 (C6_missing_token_exits_first (sample_env None [] PyNone) (start None []) eq_refl)).
Defined.

Lemma bind_Return {A B} (m : M A) (k : A -> M B) (e : env) (s s' : state) (a : A) :
  m e s = (Return a, s') -> bind m k e s = k a e s'.
Proof. intros H. unfold bind. now rewrite H. Qed.

Lemma bind_Raise {A B} (m : M A) (k : A -> M B) (e : env) (s s' : state) (x : exn) :
  m e s = (Raise x, s') -> bind m k e s = (Raise x, s').
Proof. intros H. unfold bind. now rewrite H. Qed.

(** One statement of a function body whose result is known. *)
Ltac step_by tac := erewrite bind_Return by tac.
Ltac step := step_by ltac:(reflexivity).

Lemma run_eq (e : env) (argv : list str) (s : state) :
  run argv e s
  = match subprocess_run e argv with
    | ExitZero out => (Return out, logs [Spawn argv] s)
    | ExitNonZero text => (Raise (CalledProcessError text), logs [Spawn argv] s)
    end.
Proof. unfold run, bind, emit. now destruct (subprocess_run e argv). Qed.

Lemma input_line (text line : str) (rest : list str) (e : env) (s : state) :
  stdin s = line :: rest ->
  input text e s = (Return line, extend [Prompt text] rest s).
Proof. intros H. unfold input. now rewrite H. Qed.

Lemma extend_logs (a evs : list event) (rest : list str) (s : state) :
  extend evs rest (logs a s) = extend (a ++ evs) rest s.
Proof. unfold extend, logs. simpl. now rewrite app_assoc. Qed.

Lemma logs_extend (a evs : list event) (rest : list str) (s : state) :
  logs evs (extend a rest s) = extend (a ++ evs) rest s.
Proof. unfold extend, logs. simpl. now rewrite app_assoc. Qed.

Lemma upload_build_to_pypi_eq (e : env) (s : state) :
  upload_build_to_pypi e s
  = bind (run (upload_command (is_test s))) (fun _ => ret tt) e s.
Proof.
  unfold upload_build_to_pypi, get_is_test, upload_command.
  unfold bind at 1. destruct (is_test s) as [a|]; [|reflexivity].
  now destruct (str_eqb a (py "n")).
Qed.

Lemma gate_events_spawn (names : list str) (argv : list str) :
  In (Spawn argv) (gate_events names) ->
  argv = ls_dist \/ exists d, argv = tar_list d.
Proof.
  unfold gate_events. rewrite !in_app_iff. intros [H|[H|[H|H]]].
  - destruct (Nat.eqb (List.length names) 2); simpl in H; [easy|].
    destruct H as [H|[]]; discriminate.
  - simpl in H. destruct H as [H|[H|[H|[]]]]; try discriminate.
    left. congruence.
  - apply in_map_iff in H as (d & H & _). right. exists d. congruence.
  - simpl in H. destruct H as [H|[]]; discriminate.
Qed.

Lemma gate_events_no_upload (names : list str) (t : option str) :
  ~ In (Spawn (upload_command t)) (gate_events names)
  /\ ~ In (Spawn git_push_tags) (gate_events names).
Proof.
  split; intros H; apply gate_events_spawn in H as [H|[d H]].
  - unfold upload_command in H. destruct t as [a|]; [destruct (str_eqb a (py "n"))|];
      cbv in H; discriminate.
  - unfold upload_command in H. destruct t as [a|]; [destruct (str_eqb a (py "n"))|];
      cbv in H; discriminate.
  - cbv in H; discriminate.
  - cbv in H; discriminate.
Qed.

Section VerificationGate.

(** A run that reaches the question: [dist] exists, the listing commands
    exit with status zero, and the operator types a line. *)
Variables (e : env) (st : state) (names : list str).
Variables (answer : str) (rest : list str).
Hypothesis dist_listed : os_listdir e (py "dist") = Some names.
Hypothesis ls_ok : exits_zero e ls_dist.
Hypothesis tar_ok : forall d, In d names -> exits_zero e (tar_list d).
Hypothesis typed : stdin st = answer :: rest.

(** [verify_build] up to its question. *)
Lemma verify_build_gate :
  verify_build e st
  = (if str_eqb answer (py "y")
     then print build_verified ;;; upload_build_to_pypi ;;; push_git_tags
     else raise not_verified) e (extend (gate_events names) rest st).
Proof.
  unfold verify_build.
  step_by ltac:(unfold listdir; rewrite dist_listed; reflexivity).
  destruct (run_exits_zero e ls_dist
              (logs [Stdout (py "Contents of dist folder:")]
                 (logs (if Nat.eqb (List.length names) 2 then [] else [Stderr count_warning]) st))
              ls_ok) as [out Hrun].
  erewrite bind_Return; cycle 1.
  { instantiate (1 := logs (if Nat.eqb (List.length names) 2 then [] else [Stderr count_warning]) st).
    instantiate (1 := tt).
    destruct (Nat.eqb (List.length names) 2); [|reflexivity].
    unfold ret, logs. rewrite app_nil_r. now destruct st. }
  step.
  step_by ltac:(rewrite log_logs; exact Hrun).
  step.
  step_by ltac:(unfold listdir; rewrite dist_listed; reflexivity).
  step_by ltac:(apply for_each_tar; exact tar_ok).
  step_by ltac:(apply input_line; exact typed).
  rewrite log_logs, !logs_logs, extend_logs. unfold gate_events.
  rewrite <- !app_assoc. reflexivity.
Qed.

(** C5. At the verification gate of [verify_build], once the listing
    commands have run: the count warning goes to the error stream exactly
    when [dist] does not hold two files, and the question is asked either
    way; nothing has been uploaded or pushed before the question; an answer
    other than "y" raises "Could not verify. Build was not uploaded." with
    nothing more done; the answer "y" runs the upload command, and after a
    successful upload the tag push. *)
Theorem C5_verification_gate :
  (In (Stderr count_warning) (gate_events names) <-> List.length names <> 2%nat)
  /\ In (Prompt verify_prompt) (gate_events names)
  /\ ~ In (Spawn (upload_command (is_test st))) (gate_events names)
  /\ ~ In (Spawn git_push_tags) (gate_events names)
  /\ (answer <> py "y" ->
      verify_build e st = (Raise not_verified, extend (gate_events names) rest st))
  /\ (answer = py "y" ->
      exists o evs,
        verify_build e st
        = (o, extend (gate_events names
                      ++ [Stdout build_verified; Spawn (upload_command (is_test st))]
                      ++ evs) rest st)
        /\ (exits_zero e (upload_command (is_test st)) ->
            evs = [Spawn git_push_tags]
            /\ (exits_zero e git_push_tags -> o = Return tt))).
Proof.
  pose proof verify_build_gate as Hgate.
  split; [|split; [|split; [|split; [|split]]]].
  - unfold gate_events. destruct (Nat.eqb (List.length names) 2) eqn:E.
    + apply Nat.eqb_eq in E. split; [|congruence].
      rewrite !in_app_iff. intros [[]|[H|[H|H]]].
      * simpl in H. destruct H as [H|[H|[H|[]]]]; discriminate.
      * apply in_map_iff in H as (d & H & _). discriminate.
      * simpl in H. destruct H as [H|[]]; discriminate.
    + apply Nat.eqb_neq in E. split; [auto|]. intros _.
      apply in_or_app. left. now left.
  - unfold gate_events. rewrite !in_app_iff. do 3 right. now left.
  - apply gate_events_no_upload.
  - apply (gate_events_no_upload names None).
  - intros Hno. rewrite Hgate. apply str_eqb_neq in Hno. now rewrite Hno.
  - intros Hy. rewrite Hgate, Hy.
    change (str_eqb (py "y") (py "y")) with true. cbv iota.
    step.
    unfold bind at 1. rewrite upload_build_to_pypi_eq.
    change (is_test (log _ (extend _ rest st))) with (is_test st).
    unfold bind at 1. rewrite run_eq.
    destruct (subprocess_run e (upload_command (is_test st))) as [out|text] eqn:Hup.
    + unfold ret at 1. unfold push_git_tags, bind. rewrite run_eq.
      destruct (subprocess_run e git_push_tags) as [out'|text'] eqn:Hpush.
      * exists (Return tt), [Spawn git_push_tags]. split; [|auto].
        unfold ret. rewrite log_logs, !logs_logs, logs_extend. reflexivity.
      * exists (Raise (CalledProcessError text')), [Spawn git_push_tags]. split.
        -- rewrite log_logs, !logs_logs, logs_extend. reflexivity.
        -- intros _. split; [reflexivity|]. intros [o Ho]. congruence.
    + exists (Raise (CalledProcessError text)), []. split.
      * rewrite log_logs, !logs_logs, logs_extend. reflexivity.
      * intros [o Ho]. congruence.
Qed.

End VerificationGate.

Lemma C5_verification_gate_witness :
  verify_build (sample_env (Some (py "t")) [] PyNone) (start None [py "no"])
  = (Raise not_verified,
     extend (gate_events [py "pkg-1.0.0.tar.gz"; py "pkg-1.0.0-py3-none-any.whl"])
            [] (start None [py "no"])).
Proof.
  refine (proj1 (proj2 (proj2 (proj2 (proj2
    (C5_verification_gate (sample_env (Some (py "t")) [] PyNone) (start None [py "no"])
       [py "pkg-1.0.0.tar.gz"; py "pkg-1.0.0-py3-none-any.whl"] (py "no") []
       eq_refl _ _ eq_refl))))) _).
  - exists []. reflexivity.
  - intros d _. exists []. reflexivity.
  - intros H. vm_compute in H. discriminate.
Defined.

(** ** The release notes *)

Lemma get_release_notes_url_eq (body : str) (e : env) (st : state) :
  get_release_notes_url (PyStr body) e st
  = match re_search url_nodes body with
    | Some m => (Return (group1 m), st)
    | None => (Return (Some []), log (Stderr url_parse_failed) st)
    end.
Proof.
  unfold get_release_notes_url, compile. rewrite compile_url_pattern.
  step.
  now destruct (re_search url_nodes body).
Qed.

Lemma get_changelog_release_notes_eq (url : option str) (e : env) (st : state)
    (doc version : str) :
  file_read e (py "CHANGELOG.md") = Some doc ->
  version_number st = Some version ->
  get_changelog_release_notes url e st
  = match re_search (changelog_nodes version) doc with
    | Some m => (Return (strip (fmt (group1 m))), st)
    | None => (Return [], log (Stderr (changelog_parse_failed url)) st)
    end.
Proof.
  intros Hf Hv. unfold get_changelog_release_notes.
  step_by ltac:(unfold read_text; rewrite Hf; reflexivity).
  step.
  rewrite Hv. unfold compile. rewrite compile_changelog_pattern.
  step.
  now destruct (re_search (changelog_nodes version) doc).
Qed.

(** C2, as amended. When the last line of the body is
    [**Full Changelog**: <url>] (the line starts the body or follows a
    newline, and nothing or one final newline follows it),
    [get_release_notes_url] returns exactly [<url>] and prints no warning. *)
Theorem C2_url_of_last_line (pre u t : str) (e : env) (st : state) :
  pre = [] \/ (exists pre', pre = pre' ++ [NL]) ->
  ~ In NL u ->
  t = [] \/ t = [NL] ->
  get_release_notes_url (PyStr (pre ++ py "**Full Changelog**: " ++ u ++ t)) e st
  = (Return (Some u), st).
Proof.
  intros Hpre Hu Ht. rewrite get_release_notes_url_eq, url_search; auto.
  destruct Ht as [->| ->]; reflexivity.
Qed.

Lemma C2_url_of_last_line_witness :
  get_release_notes_url
    (PyStr (py "...
" ++ py "**Full Changelog**: " ++ py "https://example.com/compare/a...b" ++ [NL]))
    (sample_env None [] PyNone) (start None [])
  = (Return (Some (py "https://example.com/compare/a...b")), start None []).
Proof.
  apply (C2_url_of_last_line (py "...
") (py "https://example.com/compare/a...b") [NL]).
  - right. exists (py "..."). reflexivity.
  - intros H. vm_compute in H.
    repeat (destruct H as [H|H]; [discriminate|]). exact H.
  - right. reflexivity.
Defined.

(** C2 as stated fails: a line of the form [**Full Changelog**: <url>] that
    is not the last line is not found. On
    "**Full Changelog**: https://x\nThanks" the result is the empty string,
    with the warning, not "https://x". *)
Lemma C2_line_before_the_end_is_missed :
  get_release_notes_url
    (PyStr (py "**Full Changelog**: https://x
Thanks"))
    (sample_env None [] PyNone) (start None [])
  = (Return (Some []), log (Stderr url_parse_failed) (start None []))
  /\ get_release_notes_url
       (PyStr (py "**Full Changelog**: https://x
Thanks"))
       (sample_env None [] PyNone) (start None [])
     <> (Return (Some (py "https://x")), start None []).
Proof. split; [reflexivity|]. intros H. vm_compute in H. discriminate. Qed.

(** C10. Composing notes from a section text that does not contain the
    label and a URL without a newline, and parsing the result with
    [get_release_notes_url], gives the URL back. *)
Theorem C10_compose_then_parse (s u : str) (e : env) (st : state) :
  occurs (py "**Full Changelog**: ") s = false ->
  ~ In NL u ->
  get_release_notes_url (PyStr (full_release_notes s u)) e st = (Return (Some u), st).
Proof.
  intros _ Hu. rewrite get_release_notes_url_eq. unfold full_release_notes.
  replace (s ++ ([NL; NL] ++ py "**Full Changelog**: ") ++ u)
    with ((s ++ [NL; NL]) ++ py "**Full Changelog**: " ++ u ++ []).
  - rewrite url_search; auto.
    right. exists (s ++ [NL]). now rewrite <- app_assoc.
  - rewrite app_nil_r, <- !app_assoc. reflexivity.
Qed.

Lemma C10_compose_then_parse_witness :
  get_release_notes_url (PyStr (full_release_notes (py "Fixed bug") (py "https://x")))
    (sample_env None [] PyNone) (start None [])
  = (Return (Some (py "https://x")), start None []).
Proof.
  apply C10_compose_then_parse.
  - reflexivity.
  - intros H. vm_compute in H.
    repeat (destruct H as [H|H]; [discriminate|]). exact H.
Defined.

(** C1, as amended. Let the first occurrence of the text [## <version>] in
    the changelog start a line, so that it is a heading and the text occurs
    nowhere before it. When the first [## ] after the heading line starts a
    line as well (it is the next heading), the result is the text between
    the end of the heading line and that next heading, stripped, and no
    warning is printed. When [## ] occurs nowhere after the heading's
    [## <version>], the end of the document does not end the section: the
    warning is printed and the result is the empty string. *)
Theorem C1_section_needs_a_following_heading (url : option str) (e : env) (st : state)
    (doc version : str) (i : nat) :
  file_read e (py "CHANGELOG.md") = Some doc ->
  version_number st = Some version ->
  find (py "## " ++ version) doc = Some i ->
  starts_line doc i = true ->
  (forall k,
      find (py "## ") (skip_line (skipn (i + List.length (py "## " ++ version)) doc)) = Some k ->
      starts_line (skip_line (skipn (i + List.length (py "## " ++ version)) doc)) k = true ->
      get_changelog_release_notes url e st
      = (Return (strip (firstn k (skip_line
                                    (skipn (i + List.length (py "## " ++ version)) doc)))),
         st))
  /\ (occurs (py "## ") (skipn (i + List.length (py "## " ++ version)) doc) = false ->
      get_changelog_release_notes url e st
      = (Return [], log (Stderr (changelog_parse_failed url)) st)).
Proof.
  intros Hf Hv Hi _. split.
  - intros k Hk _. rewrite (get_changelog_release_notes_eq url e st doc version Hf Hv).
    now rewrite (changelog_search_some version doc i k Hi Hk).
  - intros Hno. rewrite (get_changelog_release_notes_eq url e st doc version Hf Hv).
    now rewrite (changelog_search_none version doc i Hi Hno).
Qed.

Lemma C1_section_needs_a_following_heading_witness :
  get_changelog_release_notes (Some (py "https://x"))
    (sample_env None [] PyNone) (start (Some (py "2.0.0")) [])
  = (Return (py "A"), start (Some (py "2.0.0")) [])
  /\ get_changelog_release_notes (Some (py "https://x"))
       (sample_env None [] PyNone) (start (Some (py "1.0.0")) [])
     = (Return [],
        log (Stderr (changelog_parse_failed (Some (py "https://x"))))
            (start (Some (py "1.0.0")) [])).
Proof.
  split.
  - exact (proj1 (C1_section_needs_a_following_heading (Some (py "https://x"))
                    (sample_env None [] PyNone) (start (Some (py "2.0.0")) [])
                    sample_changelog (py "2.0.0") 0 eq_refl eq_refl eq_refl eq_refl)
                 3%nat eq_refl eq_refl).
  - exact (proj2 (C1_section_needs_a_following_heading (Some (py "https://x"))
                    (sample_env None [] PyNone) (start (Some (py "1.0.0")) [])
                    sample_changelog (py "1.0.0") 11 eq_refl eq_refl eq_refl eq_refl)
                 eq_refl).
Defined.

(** C1 as stated fails: on "## 2.0.0\nA\n## 1.0.0\nB" the section of
    "1.0.0", the last heading, is not found; the result is the empty string
    with the warning, not "B". *)
Lemma C1_last_section_is_not_found :
  get_changelog_release_notes (Some (py "https://x"))
    (sample_env None [] PyNone) (start (Some (py "1.0.0")) [])
  = (Return [],
     log (Stderr (changelog_parse_failed (Some (py "https://x"))))
         (start (Some (py "1.0.0")) []))
  /\ fst (get_changelog_release_notes (Some (py "https://x"))
            (sample_env None [] PyNone) (start (Some (py "1.0.0")) []))
     <> Return (py "B").
Proof. split; [reflexivity|]. intros H. vm_compute in H. discriminate. Qed.




(** The dots of "1.2.3" match dots only; the same pattern text without
    [re.escape] would match the heading "## 1x2y3". *)
Example dots_of_the_version_are_literal :
  get_changelog_release_notes None
    (mkEnv None (fun _ => ExitZero []) (fun _ => None)
           (fun _ => Some (py "## 1x2y3
A
## 1.0.0
B")) (fun _ => NotJson))
    (start (Some (py "1.2.3")) [])
  = (Return [], log (Stderr (changelog_parse_failed None)) (start (Some (py "1.2.3")) []))
  /\ option_map (fun ns => re_search ns (py "## 1x2y3
A
## 1.0.0
B")) (re_compile true (py "## 1.2.3[^\n]*(.*?)## "))
     = Some (Some (Captured [NL; 65; NL])).
Proof. split; reflexivity. Qed.

(** C9, where the code departs from it. The pattern is not tied to the
    start of a line. When no line of the changelog begins with
    [## <version>] but the text stands inside a line, and a [## ] follows
    that line, [get_changelog_release_notes] finds a section all the same:
    it returns the text up to that [## ], stripped, and prints no
    warning. *)
Theorem C9_text_outside_a_heading_is_matched (url : option str) (e : env) (st : state)
    (doc version : str) (i k : nat) :
  file_read e (py "CHANGELOG.md") = Some doc ->
  version_number st = Some version ->
  begins_a_line (py "## " ++ version) doc = false ->
  find (py "## " ++ version) doc = Some i ->
  find (py "## ") (skip_line (skipn (i + List.length (py "## " ++ version)) doc)) = Some k ->
  get_changelog_release_notes url e st
  = (Return (strip (firstn k (skip_line
                                (skipn (i + List.length (py "## " ++ version)) doc)))),
     st).
Proof.
  intros Hf Hv _ Hi Hk.
  rewrite (get_changelog_release_notes_eq url e st doc version Hf Hv).
  now rewrite (changelog_search_some version doc i k Hi Hk).
Qed.

Lemma C9_text_outside_a_heading_is_matched_witness :
  get_changelog_release_notes (Some (py "https://x"))
    (changelog_env mention_changelog) (start (Some (py "1.0.0")) [])
  = (Return (py "foo"), start (Some (py "1.0.0")) []).
Proof.
  exact (C9_text_outside_a_heading_is_matched (Some (py "https://x"))
           (changelog_env mention_changelog) (start (Some (py "1.0.0")) [])
           mention_changelog (py "1.0.0") 9 5
           eq_refl eq_refl eq_refl eq_refl eq_refl).
Defined.

(** X21. When [## ] followed by the version occurs nowhere in the
    changelog, at the start of a line or inside one,
    [get_changelog_release_notes] raises nothing: it returns the empty
    string and prints to the error stream the warning built around the
    comparison URL it was given. *)
Theorem absent_version_gives_empty (url : option str) (e : env) (st : state)
    (doc version : str) :
  file_read e (py "CHANGELOG.md") = Some doc ->
  version_number st = Some version ->
  occurs (py "## " ++ version) doc = false ->
  get_changelog_release_notes url e st
  = (Return [], log (Stderr (changelog_parse_failed url)) st).
Proof.
  intros Hf Hv Hno.
  rewrite (get_changelog_release_notes_eq url e st doc version Hf Hv).
  now rewrite (changelog_search_absent version doc Hno).
Qed.

Lemma absent_version_gives_empty_witness :
  get_changelog_release_notes (Some (py "https://x"))
    (sample_env None [] PyNone) (start (Some (py "3.0.0")) [])
  = (Return [],
     log (Stderr (changelog_parse_failed (Some (py "https://x"))))
         (start (Some (py "3.0.0")) [])).
Proof.
  exact (absent_version_gives_empty (Some (py "https://x"))
           (sample_env None [] PyNone) (start (Some (py "3.0.0")) [])
           sample_changelog (py "3.0.0") eq_refl eq_refl eq_refl).
Defined.

(** C7. The notes are the changelog section, two newlines, the label
    [**Full Changelog**: ] and the comparison URL, joined as they are, for
    any two texts; [create_release_notes_body] returns that composition of
    what [get_changelog_release_notes] and [get_release_notes_url] gave. *)
Theorem C7_notes_are_a_concatenation (s u : str) :
  full_release_notes s u = s ++ py "

**Full Changelog**: " ++ u
  /\ full_release_notes (py "Fixed bug") (py "https://x")
     = py "Fixed bug

**Full Changelog**: https://x"
  /\ forall e st body st1 st2 st3,
       generate_github_release_notes_body (version_number st) e st = (Return body, st1) ->
       get_release_notes_url body e st1 = (Return (Some u), st2) ->
       get_changelog_release_notes (Some u) e st2 = (Return s, st3) ->
       create_release_notes_body e st = (Return (full_release_notes s u), st3).
Proof.
  split; [reflexivity|]. split; [reflexivity|].
  intros e st body st1 st2 st3 Hg Hu Hc. unfold create_release_notes_body.
  step.
  step_by ltac:(exact Hg).
  step_by ltac:(exact Hu).
  step_by ltac:(exact Hc).
  reflexivity.
Qed.

Lemma C7_notes_are_a_concatenation_witness :
  create_release_notes_body
    (sample_env (Some (py "t")) sample_notes_stdout sample_notes_json)
    (start (Some (py "2.0.0")) [])
  = (Return (full_release_notes (py "A") (py "https://x")),
     logs [Spawn (generate_notes_command
                    (sample_env (Some (py "t")) sample_notes_stdout sample_notes_json)
                    (start (Some (py "2.0.0")) []))]
          (start (Some (py "2.0.0")) [])).
Proof.
  exact (proj2 (proj2 (C7_notes_are_a_concatenation (py "A") (py "https://x")))
               (sample_env (Some (py "t")) sample_notes_stdout sample_notes_json)
               (start (Some (py "2.0.0")) [])
               (PyStr (py "What's Changed
**Full Changelog**: https://x"))
               _ _ _ eq_refl eq_refl eq_refl).
Defined.

Lemma escape_newlines_flat_map (body : str) :
  escape_newlines body
  = flat_map (fun c => if c =? NL then [BACKSLASH; 110] else [c]) body.
Proof.
  unfold escape_newlines, replace.
  induction body as [|c body IH]; [reflexivity|].
  cbn [replace_from flat_map]. unfold startswith. cbn [strip_prefix].
  change (List.length [NL] - 1)%nat with 0%nat.
  rewrite (N.eqb_sym NL c). destruct (c =? NL); cbn [app]; now rewrite IH.
Qed.

(** C8. [create_github_release_draft] sends the notes with every newline
    replaced by a backslash and the letter n, every other character kept:
    the text sent has no newline left. *)
Theorem C8_no_newline_is_sent (body : str) :
  escape_newlines body
  = flat_map (fun c => if c =? NL then [BACKSLASH; 110] else [c]) body
  /\ ~ In NL (escape_newlines body)
  /\ forall e st st1,
       create_release_notes_body e st = (Return body, st1) ->
       In (Spawn (release_command e st1 body))
          (trace (snd (create_github_release_draft e st))).
Proof.
  split; [apply escape_newlines_flat_map|]. split.
  - rewrite escape_newlines_flat_map. intros H.
    apply in_flat_map in H as (c & _ & H).
    destruct (c =? NL) eqn:E.
    + destruct H as [H|[H|[]]]; discriminate.
    + destruct H as [H|[]]. subst c. discriminate.
  - intros e st st1 H. unfold create_github_release_draft.
    step_by ltac:(exact H).
    step.
    step.
    unfold bind at 1. rewrite run_eq. fold (release_command e st1 body).
    assert (Hin : forall evs, In (Spawn (release_command e st1 body))
                                 (trace (logs (Spawn (release_command e st1 body) :: evs) st1))).
    { intros evs. simpl. apply in_or_app. right. now left. }
    destruct (subprocess_run e (release_command e st1 body)) as [out|text];
      [|exact (Hin [])].
    unfold bind, loads.
    destruct (json_loads e out) as [[ | | | text | items | items]| |];
      try exact (Hin []).
    + destruct (occurs (py "html_url") text); [exact (Hin [])|].
      unfold eprint, emit. rewrite log_logs, logs_logs. apply Hin.
    + destruct (existsb (is_str (py "html_url")) items); [exact (Hin [])|].
      unfold eprint, emit. rewrite log_logs, logs_logs. apply Hin.
    + destruct (dict_get (py "html_url") items) as [[ | | | html_url | |]|];
        try exact (Hin []);
        unfold print, eprint, emit; rewrite log_logs, logs_logs; apply Hin.
Qed.

Lemma C8_no_newline_is_sent_witness :
  In (Spawn (release_command
               (sample_env (Some (py "t")) sample_notes_stdout sample_notes_json)
               (start (Some (py "2.0.0")) [])
               (full_release_notes (py "A") (py "https://x"))))
     (trace (snd (create_github_release_draft
                    (sample_env (Some (py "t")) sample_notes_stdout sample_notes_json)
                    (start (Some (py "2.0.0")) [])))).
Proof.
  exact (proj2 (proj2 (C8_no_newline_is_sent (full_release_notes (py "A") (py "https://x"))))
               (sample_env (Some (py "t")) sample_notes_stdout sample_notes_json)
               (start (Some (py "2.0.0")) [])
               (logs [Spawn (generate_notes_command
                               (sample_env (Some (py "t")) sample_notes_stdout
                                           sample_notes_json)
                               (start (Some (py "2.0.0")) []))]
                     (start (Some (py "2.0.0")) []))
               eq_refl).
Defined.

(** The fetch, case by case. *)
Lemma generate_command_failed (v : option str) (e : env) (st : state) (text : str) :
  subprocess_run e (generate_notes_command e st) = ExitNonZero text ->
  generate_github_release_notes_body v e st
  = (Return (PyStr []),
     logs [Spawn (generate_notes_command e st); Stderr (generate_failed text)] st).
Proof.
  intros H. unfold generate_github_release_notes_body, try_except_called_process_error.
  step.
  step.
  erewrite bind_Raise by (rewrite run_eq; fold (generate_notes_command e st);
                          rewrite H; reflexivity).
  cbv iota. step.
  unfold ret. now rewrite log_logs, logs_logs.
Qed.

Lemma generate_body_returned (v : option str) (e : env) (st : state)
    (out : str) (items : list (str * pyobj)) (body : pyobj) :
  subprocess_run e (generate_notes_command e st) = ExitZero out ->
  json_loads e out = Loaded (PyDict items) ->
  dict_get (py "body") items = Some body ->
  generate_github_release_notes_body v e st
  = (Return body, logs [Spawn (generate_notes_command e st)] st).
Proof.
  intros H Hj Hb. unfold generate_github_release_notes_body, try_except_called_process_error.
  step.
  step.
  step_by ltac:(rewrite run_eq; fold (generate_notes_command e st);
                rewrite H; reflexivity).
  step_by ltac:(unfold loads; rewrite Hj; reflexivity).
  unfold subscript. rewrite Hb. reflexivity.
Qed.

(** C3, where the code departs from it. [curl] is run without [--fail]: to
    a request the API refuses it still exits with status zero and prints
    the error object of the API, which has no [body]. The fetch then raises
    [KeyError] and prints no warning. *)
Theorem C3_reply_without_body_raises (v : option str) (e : env) (st : state)
    (out : str) (items : list (str * pyobj)) :
  subprocess_run e (generate_notes_command e st) = ExitZero out ->
  json_loads e out = Loaded (PyDict items) ->
  dict_get (py "body") items = None ->
  generate_github_release_notes_body v e st
  = (Raise (KeyError (py "body")), logs [Spawn (generate_notes_command e st)] st).
Proof.
  intros H Hj Hb. unfold generate_github_release_notes_body, try_except_called_process_error.
  step.
  step.
  step_by ltac:(rewrite run_eq; fold (generate_notes_command e st);
                rewrite H; reflexivity).
  step_by ltac:(unfold loads; rewrite Hj; reflexivity).
  unfold subscript. rewrite Hb. reflexivity.
Qed.

Lemma C3_reply_without_body_raises_witness :
  generate_github_release_notes_body (Some (py "1.0.0"))
    (sample_env (Some (py "bad")) not_found_stdout not_found_json)
    (start (Some (py "1.0.0")) [])
  = (Raise (KeyError (py "body")),
     logs [Spawn (generate_notes_command
                    (sample_env (Some (py "bad")) not_found_stdout not_found_json)
                    (start (Some (py "1.0.0")) []))]
          (start (Some (py "1.0.0")) [])).
Proof.
  exact (C3_reply_without_body_raises (Some (py "1.0.0"))
           (sample_env (Some (py "bad")) not_found_stdout not_found_json)
           (start (Some (py "1.0.0")) [])
           not_found_stdout [(py "message", PyStr (py "Not Found"))]
           eq_refl eq_refl eq_refl).
Defined.

(** ** Further properties: the comparison link *)

Lemma url_search_absent (body : str) :
  occurs (py "**Full Changelog**: ") body = false ->
  re_search url_nodes body = None.
Proof.
  intros H. apply re_search_None. intros a b Hab. rewrite url_match_here.
  destruct (strip_prefix (py "**Full Changelog**: ") b) as [r|] eqn:E; [|reflexivity].
  apply strip_prefix_Some in E. subst b.
  rewrite occurs_false in H. now destruct (H a r).
Qed.

Lemma forallb_no_newline (u : str) :
  forallb (atom_matches (AnyChar false)) u = true -> ~ In NL u.
Proof.
  induction u as [|c u IH]; simpl; [tauto|].
  intros H. apply andb_true_iff in H as [Hc Hu]. intros [Heq|Hin].
  - rewrite Heq in Hc. discriminate.
  - now apply IH.
Qed.

(** X1. When the label [**Full Changelog**: ] occurs nowhere in the body,
    [get_release_notes_url] prints its warning and returns the empty
    string; it raises nothing. *)
Theorem url_absent_gives_empty (body : str) (e : env) (st : state) :
  occurs (py "**Full Changelog**: ") body = false ->
  get_release_notes_url (PyStr body) e st
  = (Return (Some []), log (Stderr url_parse_failed) st).
Proof.
  intros H. rewrite get_release_notes_url_eq. now rewrite (url_search_absent body H).
Qed.

Lemma url_absent_gives_empty_witness :
  get_release_notes_url (PyStr []) (sample_env None [] PyNone) (start None [])
  = (Return (Some []), log (Stderr url_parse_failed) (start None [])).
Proof. exact (url_absent_gives_empty [] (sample_env None [] PyNone) (start None []) eq_refl). Defined.

(** X2. On any string body [get_release_notes_url] returns a string and
    raises nothing. Either it found a link, and then the body is some text,
    the label, the link, and nothing more than one final newline, the link
    has no newline in it and no warning is printed; or it prints the warning
    and the link is empty. *)
Theorem url_is_the_end_of_the_body (body : str) (e : env) (st : state) :
  (exists pre u t,
      body = pre ++ py "**Full Changelog**: " ++ u ++ t
      /\ ~ In NL u /\ (t = [] \/ t = [NL])
      /\ get_release_notes_url (PyStr body) e st = (Return (Some u), st))
  \/ get_release_notes_url (PyStr body) e st
     = (Return (Some []), log (Stderr url_parse_failed) st).
Proof.
  rewrite get_release_notes_url_eq.
  destruct (re_search url_nodes body) as [m|] eqn:E; [left|now right].
  apply re_search_Some_inv in E as (pre & b & -> & Hm).
  apply url_match_inv in Hm as (u & t & -> & Hu & Ht & ->).
  exists pre, u, t. repeat split.
  - now apply forallb_no_newline.
  - destruct t as [|c [|? ?]]; [now left| |discriminate].
    simpl in Ht. apply N.eqb_eq in Ht. subst c. now right.
Qed.

(** ** Further properties: the hosted notes *)

(** X3. When [curl] exits with a status other than zero,
    [generate_github_release_notes_body] prints a warning that carries the
    error text and returns the empty string: the failure is not raised. *)
Theorem fetch_failure_is_soft (v : option str) (e : env) (st : state) (text : str) :
  subprocess_run e (generate_notes_command e st) = ExitNonZero text ->
  generate_github_release_notes_body v e st
  = (Return (PyStr []),
     logs [Spawn (generate_notes_command e st); Stderr (generate_failed text)] st).
Proof. apply generate_command_failed. Qed.

Lemma fetch_failure_is_soft_witness :
  generate_github_release_notes_body (Some (py "1.0.0"))
    (failing_env (Some (py "t"))) (start (Some (py "1.0.0")) [])
  = (Return (PyStr []),
     logs [Spawn (generate_notes_command (failing_env (Some (py "t")))
                    (start (Some (py "1.0.0")) []));
           Stderr (generate_failed (py "exit status 1"))]
          (start (Some (py "1.0.0")) [])).
Proof.
  exact (fetch_failure_is_soft (Some (py "1.0.0")) (failing_env (Some (py "t")))
           (start (Some (py "1.0.0")) []) (py "exit status 1") eq_refl).
Defined.

(** X4. When [curl] exits with status zero and its output is a JSON object
    with a [body], [generate_github_release_notes_body] returns that value
    as it is, whatever it holds, and prints nothing. *)
Theorem fetch_returns_the_body (v : option str) (e : env) (st : state)
    (out : str) (items : list (str * pyobj)) (body : pyobj) :
  subprocess_run e (generate_notes_command e st) = ExitZero out ->
  json_loads e out = Loaded (PyDict items) ->
  dict_get (py "body") items = Some body ->
  generate_github_release_notes_body v e st
  = (Return body, logs [Spawn (generate_notes_command e st)] st).
Proof. apply generate_body_returned. Qed.

Lemma fetch_returns_the_body_witness :
  generate_github_release_notes_body (Some (py "2.0.0"))
    (sample_env (Some (py "t")) sample_notes_stdout sample_notes_json)
    (start (Some (py "2.0.0")) [])
  = (Return (PyStr (py "What's Changed
**Full Changelog**: https://x")),
     logs [Spawn (generate_notes_command
                    (sample_env (Some (py "t")) sample_notes_stdout sample_notes_json)
                    (start (Some (py "2.0.0")) []))]
          (start (Some (py "2.0.0")) [])).
Proof.
  exact (fetch_returns_the_body (Some (py "2.0.0"))
           (sample_env (Some (py "t")) sample_notes_stdout sample_notes_json)
           (start (Some (py "2.0.0")) []) sample_notes_stdout _ _
           eq_refl eq_refl eq_refl).
Defined.

(** X5. When [curl] exits with status zero and [json.loads] cannot read
    what it printed, the error of [json.loads] is raised out of
    [generate_github_release_notes_body]: [JSONDecodeError] for text that is
    not a JSON document, [UnicodeDecodeError] for bytes that do not decode.
    The handler of the function catches neither, and no warning is
    printed. *)
Theorem fetch_of_garbage_raises (v : option str) (e : env) (st : state) (out : str) :
  subprocess_run e (generate_notes_command e st) = ExitZero out ->
  (json_loads e out = NotJson ->
   generate_github_release_notes_body v e st
   = (Raise JSONDecodeError, logs [Spawn (generate_notes_command e st)] st))
  /\ (json_loads e out = NotUnicode ->
      generate_github_release_notes_body v e st
      = (Raise UnicodeDecodeError, logs [Spawn (generate_notes_command e st)] st)).
Proof.
  intros H.
  assert (Hload : generate_github_release_notes_body v e st
                  = match json_loads e out with
                    | Loaded parsed =>
                        match (subscript parsed (py "body"))
                                e (logs [Spawn (generate_notes_command e st)] st) with
                        | (Raise (CalledProcessError text), s') =>
                            (eprint (generate_failed text) ;;; ret (PyStr [])) e s'
                        | r => r
                        end
                    | NotUnicode =>
                        (Raise UnicodeDecodeError,
                         logs [Spawn (generate_notes_command e st)] st)
                    | NotJson =>
                        (Raise JSONDecodeError,
                         logs [Spawn (generate_notes_command e st)] st)
                    end).
  { unfold generate_github_release_notes_body, try_except_called_process_error.
    step. step.
    step_by ltac:(rewrite run_eq; fold (generate_notes_command e st);
                  rewrite H; reflexivity).
    unfold bind at 1, loads.
    destruct (json_loads e out) as [parsed| |]; try reflexivity.
    unfold bind, ret.
    destruct (subscript parsed (py "body") e _) as [[b|x] s']; reflexivity. }
  rewrite Hload. split; intros ->; reflexivity.
Qed.

Lemma fetch_of_garbage_raises_witness :
  generate_github_release_notes_body (Some (py "1.0.0"))
    (failing_env_with (ExitZero (py "<html>")))
    (start (Some (py "1.0.0")) [])
  = (Raise JSONDecodeError,
     logs [Spawn (generate_notes_command (failing_env_with (ExitZero (py "<html>")))
                    (start (Some (py "1.0.0")) []))]
          (start (Some (py "1.0.0")) [])).
Proof.
  exact (proj1 (fetch_of_garbage_raises (Some (py "1.0.0"))
                  (failing_env_with (ExitZero (py "<html>")))
                  (start (Some (py "1.0.0")) []) (py "<html>") eq_refl)
               eq_refl).
Defined.

(** ** Further properties: the changelog section *)

(** Where a successful greedy repeat stopped. *)
Lemma greedy_inv (a : atom) (rest : list node) (s : str) :
  forall g r,
  match_here (MaxRepeat a :: rest) s g = Some r ->
  exists x y, s = x ++ y /\ match_here rest y (fold_left consume x g) = Some r.
Proof.
  induction s as [|c s IH]; intros g r; rewrite match_here_max.
  - intros H. now exists [], [].
  - destruct (atom_matches a c).
    + destruct (match_here (MaxRepeat a :: rest) s (consume g c)) as [r'|] eqn:E.
      * intros H. injection H as <-.
        apply IH in E as (x & y & -> & Hy). now exists (c :: x), y.
      * intros H. now exists [], (c :: s).
    + intros H. now exists [], (c :: s).
Qed.

(** A match of the changelog pattern: the heading text, some text, the
    capture, and the first [## ] after the capture's start. *)
Lemma changelog_match_inv (version s : str) (m : capture) :
  match_here (changelog_nodes version) s Unset = Some m ->
  exists x y k,
    s = (py "## " ++ version) ++ x ++ y
    /\ find (py "## ") y = Some k /\ m = Captured (firstn k y).
Proof.
  rewrite changelog_match_here.
  destruct (strip_prefix (py "## " ++ version) s) as [r|] eqn:E; [|discriminate].
  apply strip_prefix_Some in E. intros H.
  apply greedy_inv in H as (x & y & -> & H).
  change (match_here (GroupOpen :: ?ns) y ?g) with (match_here ns y (Capturing [])) in H.
  rewrite lazy_until_literal in H.
  destruct (find (py "## ") y) as [k|] eqn:F; [|discriminate].
  injection H as <-. now exists x, y, k.
Qed.

(** Before its first occurrence a non-empty text does not occur. *)
Lemma no_occurrence_before_find (p s : str) (k : nat) :
  p <> [] -> find p s = Some k -> occurs p (firstn k s) = false.
Proof.
  intros Hp Hk. apply occurs_false. intros a b Hab.
  assert (Hs : s = a ++ p ++ (b ++ skipn k s)).
  { rewrite <- (firstn_skipn k s) at 1. rewrite Hab, <- !app_assoc. reflexivity. }
  pose proof (find_Some_first p s k Hk _ _ Hs) as Hle.
  pose proof (firstn_le_length k s) as Hlen.
  rewrite Hab, !length_app in Hlen.
  destruct p; [congruence|]. simpl in Hlen. lia.
Qed.

Lemma lstrip_suffix (s : str) : exists a, s = a ++ lstrip s.
Proof.
  induction s as [|c s (a & Ha)]; [now exists []|]. simpl.
  destruct (isspace c).
  - exists (c :: a). simpl. now rewrite <- Ha.
  - now exists [].
Qed.

Lemma rstrip_prefix (s : str) : exists b, s = rstrip s ++ b.
Proof.
  unfold rstrip. destruct (lstrip_suffix (rev s)) as [a Ha].
  exists (rev a). rewrite <- rev_app_distr, <- Ha. now rewrite rev_involutive.
Qed.

(** [strip] keeps a stretch of the text. *)
Lemma strip_stretch (s : str) : exists a b, s = a ++ strip s ++ b.
Proof.
  unfold strip. destruct (lstrip_suffix s) as [a Ha].
  destruct (rstrip_prefix (lstrip s)) as [b Hb].
  exists a, b. now rewrite <- Hb.
Qed.

Lemma occurs_strip (p s : str) : occurs p s = false -> occurs p (strip s) = false.
Proof.
  rewrite !occurs_false. intros H x y Hxy.
  destruct (strip_stretch s) as (a & b & Hs).
  apply (H (a ++ x) (y ++ b)). rewrite Hs at 1. rewrite Hxy, <- !app_assoc. reflexivity.
Qed.

Lemma lstrip_idempotent (s : str) : lstrip (lstrip s) = lstrip s.
Proof.
  induction s as [|c s IH]; [reflexivity|]. simpl.
  destruct (isspace c) eqn:E; [exact IH|]. simpl. now rewrite E.
Qed.

Lemma lstrip_keeps_last (u : str) (c : char) :
  isspace c = false -> exists w, lstrip (u ++ [c]) = w ++ [c].
Proof.
  intros Hc. induction u as [|x u (w & Hw)]; simpl.
  - rewrite Hc. now exists [].
  - destruct (isspace x); [now exists w|]. now exists (x :: u).
Qed.

(** Stripping the right end leaves the left end stripped. *)
Lemma lstrip_rstrip (s : str) : lstrip s = s -> lstrip (rstrip s) = rstrip s.
Proof.
  destruct s as [|c s]; [reflexivity|]. simpl.
  destruct (isspace c) eqn:Hc.
  - intros H. exfalso. destruct (lstrip_suffix s) as [a Ha].
    rewrite H in Ha. apply (f_equal (@List.length char)) in Ha.
    rewrite length_app in Ha. simpl in Ha. lia.
  - intros _. unfold rstrip. simpl rev.
    destruct (lstrip_keeps_last (rev s) c Hc) as [w ->].
    rewrite rev_app_distr. simpl. now rewrite Hc.
Qed.

Lemma strip_idempotent (s : str) : strip (strip s) = strip s.
Proof.
  unfold strip.
  rewrite (lstrip_rstrip (lstrip s) (lstrip_idempotent s)).
  unfold rstrip. rewrite rev_involutive, lstrip_idempotent. reflexivity.
Qed.

(** What [get_changelog_release_notes] returns, whenever it returns. *)
Lemma get_changelog_release_notes_inv (url : option str) (e : env) (st st' : state)
    (notes : str) :
  get_changelog_release_notes url e st = (Return notes, st') ->
  notes = []
  \/ exists version doc m text,
       version_number st = Some version
       /\ file_read e (py "CHANGELOG.md") = Some doc
       /\ re_search (changelog_nodes version) doc = Some m
       /\ group1 m = Some text /\ notes = strip text.
Proof.
  destruct (file_read e (py "CHANGELOG.md")) as [doc|] eqn:Hf.
  - destruct (version_number st) as [version|] eqn:Hv.
    + rewrite (get_changelog_release_notes_eq url e st doc version Hf Hv).
      destruct (re_search (changelog_nodes version) doc) as [m|] eqn:Hm.
      * intros H. injection H as <- _. right.
        pose proof Hm as Hm'.
        apply re_search_Some_inv in Hm' as (a & b & _ & Hb).
        apply changelog_match_inv in Hb as (x & y & k & _ & _ & ->).
        exists version, doc, (Captured (firstn k y)), (firstn k y). auto.
      * intros H. injection H as <- _. now left.
    + unfold get_changelog_release_notes.
      step_by ltac:(unfold read_text; rewrite Hf; reflexivity).
      step. rewrite Hv. discriminate.
  - unfold get_changelog_release_notes.
    erewrite bind_Raise by (unfold read_text; rewrite Hf; reflexivity).
    discriminate.
Qed.

(** X6. Whatever [get_changelog_release_notes] returns has no white space
    at either end: stripping it again changes nothing. *)
Theorem changelog_notes_are_stripped (url : option str) (e : env) (st st' : state)
    (notes : str) :
  get_changelog_release_notes url e st = (Return notes, st') ->
  strip notes = notes.
Proof.
  intros H. apply get_changelog_release_notes_inv in H
    as [->|(version & doc & m & text & _ & _ & _ & _ & ->)]; [reflexivity|].
  apply strip_idempotent.
Qed.

Lemma changelog_notes_are_stripped_witness :
  strip (py "A") = py "A".
Proof.
  exact (changelog_notes_are_stripped (Some (py "https://x"))
           (sample_env None [] PyNone) (start (Some (py "2.0.0")) [])
           (start (Some (py "2.0.0")) []) (py "A") eq_refl).
Defined.

(** X7. Whatever [get_changelog_release_notes] returns holds no heading
    marker [## ]: the section ends before the next one. *)
Theorem changelog_notes_hold_no_heading (url : option str) (e : env) (st st' : state)
    (notes : str) :
  get_changelog_release_notes url e st = (Return notes, st') ->
  occurs (py "## ") notes = false.
Proof.
  intros H. apply get_changelog_release_notes_inv in H
    as [->|(version & doc & m & text & _ & _ & Hm & Hg & ->)]; [reflexivity|].
  apply occurs_strip.
  apply re_search_Some_inv in Hm as (a & b & _ & Hb).
  apply changelog_match_inv in Hb as (x & y & k & _ & Hk & ->).
  injection Hg as <-. apply no_occurrence_before_find; [discriminate|exact Hk].
Qed.

Lemma changelog_notes_hold_no_heading_witness :
  occurs (py "## ") (py "A") = false.
Proof.
  exact (changelog_notes_hold_no_heading (Some (py "https://x"))
           (sample_env None [] PyNone) (start (Some (py "2.0.0")) [])
           (start (Some (py "2.0.0")) []) (py "A") eq_refl).
Defined.

(** ** Further properties: the driver *)

Lemma ask_until_yes_or_no_eq (lines : list str) (answer : str)
    (v : option str) (tr : list event) :
  ask_until_yes_or_no lines answer v tr
  = if yes_or_no answer then (Return tt, mkState (Some answer) v lines tr)
    else match lines with
         | [] => (Raise EOFError,
                  mkState (Some answer) v [] (tr ++ [Stdout invalid_input; Prompt test_prompt]))
         | line :: rest =>
             ask_until_yes_or_no rest line v (tr ++ [Stdout invalid_input; Prompt test_prompt])
         end.
Proof. destruct lines; reflexivity. Qed.

(** The loop of the first question, over rejected answers and then an
    accepted one. *)
Lemma ask_loop_run (t : str) (more : list str) (v : option str) :
  yes_or_no t = true ->
  forall bad answer lines tr,
  answer :: lines = bad ++ t :: more -> Forall rejected bad ->
  ask_until_yes_or_no lines answer v tr
  = (Return tt,
     mkState (Some t) v more
       (tr ++ flat_map (fun _ : str => [Stdout invalid_input; Prompt test_prompt]) bad)).
Proof.
  intros Ht. induction bad as [|b bad IH]; intros answer lines tr Heq Hbad.
  - simpl in Heq. injection Heq as -> ->.
    rewrite ask_until_yes_or_no_eq, Ht. simpl. now rewrite app_nil_r.
  - simpl in Heq. injection Heq as -> ->. inversion Hbad as [|? ? Hb Hbad']; subst.
    rewrite ask_until_yes_or_no_eq. unfold rejected in Hb. rewrite Hb.
    destruct (bad ++ t :: more) as [|l rest'] eqn:E.
    + now destruct bad.
    + rewrite (IH l rest' _ eq_refl Hbad'). simpl. now rewrite <- app_assoc.
Qed.

(** X8. The loop of the first question ends in one of two ways only: it
    returns with the global [is_test] set to "y" or to "n", or the console
    input is exhausted and [EOFError] is raised. *)
Theorem first_question_ends_with_y_or_n (lines : list str) (answer : str)
    (v : option str) (tr : list event) :
  (fst (ask_until_yes_or_no lines answer v tr) = Return tt
   /\ (is_test (snd (ask_until_yes_or_no lines answer v tr)) = Some (py "y")
       \/ is_test (snd (ask_until_yes_or_no lines answer v tr)) = Some (py "n")))
  \/ (fst (ask_until_yes_or_no lines answer v tr) = Raise EOFError
      /\ stdin (snd (ask_until_yes_or_no lines answer v tr)) = []).
Proof.
  revert answer tr. induction lines as [|l lines IH]; intros answer tr;
    rewrite ask_until_yes_or_no_eq; destruct (yes_or_no answer) eqn:E.
  - left. split; [reflexivity|]. unfold yes_or_no in E.
    apply orb_true_iff in E as [E|E]; apply str_eqb_eq in E; subst; auto.
  - right. split; reflexivity.
  - left. split; [reflexivity|]. unfold yes_or_no in E.
    apply orb_true_iff in E as [E|E]; apply str_eqb_eq in E; subst; auto.
  - apply IH.
Qed.

(** A command followed by its line of success. *)
Lemma run_then_print (argv : list str) (line : str) (e : env) (s : state) :
  (run argv ;;; print line) e s
  = match subprocess_run e argv with
    | ExitZero _ => (Return tt, logs [Spawn argv; Stdout line] s)
    | ExitNonZero text => (Raise (CalledProcessError text), logs [Spawn argv] s)
    end.
Proof.
  unfold bind. rewrite run_eq. destruct (subprocess_run e argv); [|reflexivity].
  unfold print, emit. now rewrite log_logs, logs_logs.
Qed.

Lemma verify_build_accepted (e : env) (st : state) (names : list str) (rest : list str) :
  os_listdir e (py "dist") = Some names ->
  exits_zero e ls_dist ->
  (forall d, In d names -> exits_zero e (tar_list d)) ->
  stdin st = py "y" :: rest ->
  exits_zero e (upload_command (is_test st)) ->
  exits_zero e git_push_tags ->
  verify_build e st
  = (Return tt,
     extend (gate_events names
             ++ [Stdout build_verified; Spawn (upload_command (is_test st));
                 Spawn git_push_tags]) rest st).
Proof.
  intros Hdir Hls Htar Hin [o1 Hup] [o2 Hpush].
  rewrite (verify_build_gate e st names (py "y") rest Hdir Hls Htar Hin).
  change (str_eqb (py "y") (py "y")) with true. cbv iota.
  step.
  step_by ltac:(rewrite upload_build_to_pypi_eq; unfold bind;
                change (is_test (log _ (extend _ rest st))) with (is_test st);
                rewrite run_eq, Hup; reflexivity).
  unfold push_git_tags, bind. rewrite run_eq, Hpush. unfold ret.
  rewrite log_logs, !logs_logs, logs_extend. reflexivity.
Qed.

(** Two states that differ in how their traces are bracketed. *)
Ltac same_state :=
  f_equal;
  unfold log, logs, extend, prelude_events, asking, tagged_events, cleaned_events,
    built_events;
  cbn [trace is_test version_number stdin app];
  repeat (rewrite <- app_assoc; cbn [app]);
  reflexivity.

Section Pipeline.

(** A run of [main] with a token, in which the operator answers the first
    question with the answers of [bad], none of them accepted, and then
    with [t], and types the version. *)
Variables (e : env) (st : state) (bad : list str) (t version : str) (more : list str).
Hypothesis token_set : falsy (GITHUB_TOKEN e) = false.
Hypothesis bad_rejected : Forall rejected bad.
Hypothesis t_accepted : yes_or_no t = true.
Hypothesis typed : stdin st = bad ++ t :: version :: more.

(** [main] up to the first command. *)
Lemma main_prelude :
  main e st
  = (add_git_tag_for_version version ;;; remove_previous_dist ;;; create_build ;;;
     verify_build ;;; create_github_release_draft) e
      (mkState (Some t) (Some version) more (trace st ++ prelude_events bad)).
Proof.
  unfold main. step. step. step. rewrite token_set. step.
  destruct bad as [|b bad'] eqn:Ebad.
  - step_by ltac:(apply input_line; exact typed).
    step_by ltac:(cbv beta; apply (ask_loop_run t (version :: more) _ t_accepted []);
                  [reflexivity|constructor]).
    step. step. same_state.
  - step_by ltac:(apply input_line; exact typed).
    step_by ltac:(cbv beta; apply (ask_loop_run t (version :: more) _ t_accepted (b :: bad'));
                  [reflexivity|exact bad_rejected]).
    step. step. same_state.
Qed.

(** X10. A build that fails ends the run: when the tag and the clean-up
    succeed and [python -m build] exits with another status, [main] raises
    [CalledProcessError] right after that command, the process status is 1,
    and nothing typed after the version has been read. *)
Theorem failed_build_ends_the_run (text : str) :
  exits_zero e (git_tag version) ->
  exits_zero e rm_dist ->
  subprocess_run e python_build = ExitNonZero text ->
  main e st
  = (Raise (CalledProcessError text),
     mkState (Some t) (Some version) more
       (trace st ++ prelude_events bad ++ tagged_events version ++ cleaned_events
        ++ [Spawn python_build]))
  /\ exit_status (fst (main e st)) = 1%Z.
Proof.
  intros [o1 Htag] [o2 Hrm] Hbuild.
  assert (H : main e st
              = (Raise (CalledProcessError text),
                 mkState (Some t) (Some version) more
                   (trace st ++ prelude_events bad ++ tagged_events version
                    ++ cleaned_events ++ [Spawn python_build]))).
  { rewrite main_prelude.
    step_by ltac:(unfold add_git_tag_for_version; rewrite run_then_print;
                  fold (git_tag version); rewrite Htag; reflexivity).
    step_by ltac:(unfold remove_previous_dist; rewrite run_then_print;
                  fold rm_dist; rewrite Hrm; reflexivity).
    erewrite bind_Raise by (unfold create_build; rewrite run_then_print;
                            fold python_build; rewrite Hbuild; reflexivity).
    same_state. }
  rewrite H. split; reflexivity.
Qed.

(** [main] up to [verify_build], when the three commands before it succeed. *)
Lemma main_until_verify :
  exits_zero e (git_tag version) ->
  exits_zero e rm_dist ->
  exits_zero e python_build ->
  main e st
  = (verify_build ;;; create_github_release_draft) e
      (mkState (Some t) (Some version) more
         (trace st ++ prelude_events bad ++ tagged_events version
          ++ cleaned_events ++ built_events)).
Proof.
  intros [o1 Htag] [o2 Hrm] [o3 Hbuild]. rewrite main_prelude.
  step_by ltac:(unfold add_git_tag_for_version; rewrite run_then_print;
                fold (git_tag version); rewrite Htag; reflexivity).
  step_by ltac:(unfold remove_previous_dist; rewrite run_then_print;
                fold rm_dist; rewrite Hrm; reflexivity).
  step_by ltac:(unfold create_build; rewrite run_then_print;
                fold python_build; rewrite Hbuild; reflexivity).
  same_state.
Qed.

End Pipeline.

(** X9. The order of a release: with a token, an accepted answer to the
    first question, a version and the answer "y" at the gate, and every
    command before the draft exiting with status zero, [main] tags, cleans,
    builds, lists, asks, uploads to the index chosen by the first answer
    and pushes the tags, in that order, and only then goes on to
    [create_github_release_draft]. *)
Theorem accepted_build_is_uploaded_then_drafted (e : env) (st : state)
    (bad : list str) (t version : str) (names rest : list str) :
  falsy (GITHUB_TOKEN e) = false ->
  Forall rejected bad ->
  yes_or_no t = true ->
  stdin st = bad ++ t :: version :: py "y" :: rest ->
  exits_zero e (git_tag version) ->
  exits_zero e rm_dist ->
  exits_zero e python_build ->
  os_listdir e (py "dist") = Some names ->
  exits_zero e ls_dist ->
  (forall d, In d names -> exits_zero e (tar_list d)) ->
  exits_zero e (upload_command (Some t)) ->
  exits_zero e git_push_tags ->
  main e st
  = create_github_release_draft e
      (mkState (Some t) (Some version) rest
         (trace st ++ prelude_events bad ++ tagged_events version ++ cleaned_events
          ++ built_events ++ gate_events names
          ++ [Stdout build_verified; Spawn (upload_command (Some t));
              Spawn git_push_tags])).
Proof.
  intros Htok Hbad Ht Hin Htag Hrm Hbuild Hdir Hls Htar Hup Hpush.
  rewrite (main_until_verify e st bad t version (py "y" :: rest) Htok Hbad Ht Hin
             Htag Hrm Hbuild).
  step_by ltac:(eapply verify_build_accepted;
                [exact Hdir|exact Hls|exact Htar|reflexivity|exact Hup|exact Hpush]).
  same_state.
Qed.

Lemma accepted_build_is_uploaded_then_drafted_witness :
  main (sample_env (Some (py "t")) sample_notes_stdout sample_notes_json)
       (start None [py "maybe"; py "n"; py "2.0.0"; py "y"])
  = create_github_release_draft
      (sample_env (Some (py "t")) sample_notes_stdout sample_notes_json)
      (mkState (Some (py "n")) (Some (py "2.0.0")) []
         ([] ++ prelude_events [py "maybe"] ++ tagged_events (py "2.0.0")
          ++ cleaned_events ++ built_events
          ++ gate_events [py "pkg-1.0.0.tar.gz"; py "pkg-1.0.0-py3-none-any.whl"]
          ++ [Stdout build_verified; Spawn twine_upload; Spawn git_push_tags])).
Proof.
  apply (accepted_build_is_uploaded_then_drafted
           (sample_env (Some (py "t")) sample_notes_stdout sample_notes_json)
           (start None [py "maybe"; py "n"; py "2.0.0"; py "y"])
           [py "maybe"] (py "n") (py "2.0.0")
           [py "pkg-1.0.0.tar.gz"; py "pkg-1.0.0-py3-none-any.whl"] []);
    try reflexivity;
    try (intros; eexists; reflexivity).
  constructor; [reflexivity|constructor].
Defined.

(** X11. A rejected build is neither uploaded nor released: when the
    commands up to the gate succeed and the answer at the gate is not "y",
    [main] raises "Could not verify. Build was not uploaded." right after
    the question, with process status 1. The tag has been created; no
    upload or push has run and no request has been sent to the hosted
    API. *)
Theorem rejected_build_is_not_released (e : env) (st : state)
    (bad : list str) (t version answer : str) (names rest : list str) :
  falsy (GITHUB_TOKEN e) = false ->
  Forall rejected bad ->
  yes_or_no t = true ->
  stdin st = bad ++ t :: version :: answer :: rest ->
  exits_zero e (git_tag version) ->
  exits_zero e rm_dist ->
  exits_zero e python_build ->
  os_listdir e (py "dist") = Some names ->
  exits_zero e ls_dist ->
  (forall d, In d names -> exits_zero e (tar_list d)) ->
  answer <> py "y" ->
  main e st
  = (Raise not_verified,
     mkState (Some t) (Some version) rest
       (trace st ++ prelude_events bad ++ tagged_events version ++ cleaned_events
        ++ built_events ++ gate_events names))
  /\ exit_status (fst (main e st)) = 1%Z.
Proof.
  intros Htok Hbad Ht Hin Htag Hrm Hbuild Hdir Hls Htar Hno.
  assert (H : main e st
              = (Raise not_verified,
                 mkState (Some t) (Some version) rest
                   (trace st ++ prelude_events bad ++ tagged_events version
                    ++ cleaned_events ++ built_events ++ gate_events names))).
  { rewrite (main_until_verify e st bad t version (answer :: rest) Htok Hbad Ht Hin
               Htag Hrm Hbuild).
    erewrite bind_Raise
      by (erewrite verify_build_gate
            by first [exact Hdir|exact Hls|exact Htar|reflexivity];
          apply str_eqb_neq in Hno; rewrite Hno; reflexivity).
    same_state. }
  rewrite H. split; reflexivity.
Qed.

Lemma rejected_build_is_not_released_witness :
  main (sample_env (Some (py "t")) sample_notes_stdout sample_notes_json)
       (start None [py "y"; py "2.0.0"; py "n"])
  = (Raise not_verified,
     mkState (Some (py "y")) (Some (py "2.0.0")) []
       ([] ++ prelude_events [] ++ tagged_events (py "2.0.0") ++ cleaned_events
        ++ built_events
        ++ gate_events [py "pkg-1.0.0.tar.gz"; py "pkg-1.0.0-py3-none-any.whl"])).
Proof.
  refine (proj1 (rejected_build_is_not_released
           (sample_env (Some (py "t")) sample_notes_stdout sample_notes_json)
           (start None [py "y"; py "2.0.0"; py "n"])
           [] (py "y") (py "2.0.0") (py "n")
           [py "pkg-1.0.0.tar.gz"; py "pkg-1.0.0-py3-none-any.whl"] []
           eq_refl (Forall_nil _) eq_refl eq_refl _ _ _ eq_refl _ _ _));
    try (eexists; reflexivity).
  intros H. vm_compute in H. discriminate.
Defined.

Lemma failed_build_ends_the_run_witness :
  main (only_fails python_build) (start None [py "y"; py "2.0.0"; py "y"])
  = (Raise (CalledProcessError (py "exit status 1")),
     mkState (Some (py "y")) (Some (py "2.0.0")) [py "y"]
       ([] ++ prelude_events [] ++ tagged_events (py "2.0.0") ++ cleaned_events
        ++ [Spawn python_build])).
Proof.
  refine (proj1 (failed_build_ends_the_run (only_fails python_build)
                   (start None [py "y"; py "2.0.0"; py "y"])
                   [] (py "y") (py "2.0.0") [py "y"]
                   eq_refl (Forall_nil _) eq_refl eq_refl
                   (py "exit status 1") _ _ eq_refl));
    eexists; reflexivity.
Defined.

(** X16. A [GITHUB_TOKEN] that is set to the empty string counts as
    absent: [main] prints the same diagnostic and exits with status 1
    before asking or running anything. *)
Theorem empty_token_counts_as_absent (e : env) (st : state) :
  GITHUB_TOKEN e = Some [] ->
  main e st
  = (Raise (SystemExit 1),
     logs [Stdout starting; Stdout checking; Stdout token_missing] st)
  /\ exit_status (fst (main e st)) = 1%Z.
Proof.
  intros H.
  assert (Hmain : main e st
                  = (Raise (SystemExit 1),
                     logs [Stdout starting; Stdout checking; Stdout token_missing] st)).
  { unfold main. step. step. step. rewrite H. cbn [falsy].
    erewrite bind_Raise by (step; reflexivity).
    rewrite !log_logs, !logs_logs. reflexivity. }
  rewrite Hmain. split; reflexivity.
Qed.

Lemma empty_token_counts_as_absent_witness :
  main (sample_env (Some []) [] PyNone) (start None [py "y"])
  = (Raise (SystemExit 1),
     logs [Stdout starting; Stdout checking; Stdout token_missing] (start None [py "y"])).
Proof.
  exact (proj1 (empty_token_counts_as_absent (sample_env (Some []) [] PyNone)
                  (start None [py "y"]) eq_refl)).
Defined.

(** X12. The production index is used only when the first answer was "n":
    [upload_build_to_pypi] runs [twine upload dist/*] when [is_test] is "n",
    and the upload to [testpypi] for any other value, also when it was
    never set. *)
Theorem production_upload_only_on_n (e : env) (s : state) :
  (is_test s = Some (py "n") ->
   trace (snd (upload_build_to_pypi e s)) = trace s ++ [Spawn twine_upload])
  /\ (is_test s <> Some (py "n") ->
      trace (snd (upload_build_to_pypi e s)) = trace s ++ [Spawn twine_upload_test]).
Proof.
  assert (H : trace (snd (upload_build_to_pypi e s))
              = trace s ++ [Spawn (upload_command (is_test s))]).
  { rewrite upload_build_to_pypi_eq. unfold bind. rewrite run_eq.
    now destruct (subprocess_run e (upload_command (is_test s))). }
  rewrite H. split.
  - intros ->. reflexivity.
  - intros Hn. unfold upload_command. destruct (is_test s) as [a|]; [|reflexivity].
    destruct (str_eqb a (py "n")) eqn:E; [|reflexivity].
    apply str_eqb_eq in E. congruence.
Qed.

Lemma production_upload_only_on_n_witness :
  trace (snd (upload_build_to_pypi (sample_env None [] PyNone)
                (mkState (Some (py "n")) None [] [])))
  = [] ++ [Spawn twine_upload].
Proof.
  exact (proj1 (production_upload_only_on_n (sample_env None [] PyNone)
                  (mkState (Some (py "n")) None [] [])) eq_refl).
Defined.

Lemma for_each_tar_fails (e : env) (d : str) (b : list str) (text : str) :
  subprocess_run e (tar_list d) = ExitNonZero text ->
  forall a s,
  (forall x, In x a -> exits_zero e (tar_list x)) ->
  for_each (a ++ d :: b) (fun directory => run (tar_list directory) ;;; ret tt) e s
  = (Raise (CalledProcessError text),
     logs (map (fun directory => Spawn (tar_list directory)) (a ++ [d])) s).
Proof.
  intros Hd. induction a as [|x a IH]; intros s Ha.
  - simpl. erewrite bind_Raise; [reflexivity|].
    erewrite bind_Raise; [reflexivity|]. now rewrite run_eq, Hd.
  - simpl app. simpl for_each.
    destruct (run_exits_zero e (tar_list x) s (Ha x (or_introl eq_refl))) as [out Hrun].
    step_by ltac:(erewrite bind_Return by exact Hrun; reflexivity).
    rewrite IH by (intros y Hy; apply Ha; now right).
    now rewrite logs_logs.
Qed.

(** X17. An archive that [tar] cannot list blocks the gate: when [tar tvf]
    exits with a non-zero status on a file of [dist], [verify_build] raises
    [CalledProcessError] right there; the operator is not asked, nothing
    typed is read, and no later file is listed. *)
Theorem unlistable_archive_blocks_the_gate (e : env) (st : state)
    (a : list str) (d : str) (b : list str) (text : str) :
  os_listdir e (py "dist") = Some (a ++ d :: b) ->
  exits_zero e ls_dist ->
  (forall x, In x a -> exits_zero e (tar_list x)) ->
  subprocess_run e (tar_list d) = ExitNonZero text ->
  verify_build e st
  = (Raise (CalledProcessError text),
     logs (listing_events (a ++ d :: b)
           ++ map (fun directory => Spawn (tar_list directory)) (a ++ [d])) st).
Proof.
  intros Hdir Hls Ha Hd. unfold verify_build.
  step_by ltac:(unfold listdir; rewrite Hdir; reflexivity).
  set (names := a ++ d :: b) in *.
  destruct (run_exits_zero e ls_dist
              (logs [Stdout (py "Contents of dist folder:")]
                 (logs (if Nat.eqb (List.length names) 2 then [] else [Stderr count_warning]) st))
              Hls) as [out Hrun].
  erewrite bind_Return; cycle 1.
  { instantiate (1 := logs (if Nat.eqb (List.length names) 2 then [] else [Stderr count_warning]) st).
    instantiate (1 := tt).
    destruct (Nat.eqb (List.length names) 2); [|reflexivity].
    unfold ret, logs. rewrite app_nil_r. now destruct st. }
  step.
  step_by ltac:(rewrite log_logs; exact Hrun).
  step.
  step_by ltac:(unfold listdir; rewrite Hdir; reflexivity).
  erewrite bind_Raise by (apply (for_each_tar_fails e d b text Hd a); exact Ha).
  rewrite log_logs, !logs_logs. unfold listing_events.
  rewrite <- !app_assoc. reflexivity.
Qed.

Lemma unlistable_archive_blocks_the_gate_witness :
  verify_build (only_fails (tar_list (py "pkg-1.0.0-py3-none-any.whl")))
    (start None [py "y"])
  = (Raise (CalledProcessError (py "exit status 1")),
     logs (listing_events [py "pkg-1.0.0.tar.gz"; py "pkg-1.0.0-py3-none-any.whl"]
           ++ [Spawn (tar_list (py "pkg-1.0.0.tar.gz"));
               Spawn (tar_list (py "pkg-1.0.0-py3-none-any.whl"))])
          (start None [py "y"])).
Proof.
  refine (unlistable_archive_blocks_the_gate
            (only_fails (tar_list (py "pkg-1.0.0-py3-none-any.whl")))
            (start None [py "y"])
            [py "pkg-1.0.0.tar.gz"] (py "pkg-1.0.0-py3-none-any.whl") []
            (py "exit status 1") eq_refl _ _ eq_refl).
  - eexists. reflexivity.
  - intros x [<-|[]]. eexists. reflexivity.
Defined.

(** ** Further properties: composing and publishing the notes *)

(** X14. Without the hosted notes the release still gets notes: when
    [curl] fails in the fetch, [create_release_notes_body] prints the two
    warnings (no generated notes, no link in them) and returns the
    changelog section followed by the label with an empty link. *)
Theorem notes_without_the_hosted_link (e : env) (st st2 : state) (text notes : str) :
  subprocess_run e (generate_notes_command e st) = ExitNonZero text ->
  get_changelog_release_notes (Some []) e
    (logs [Spawn (generate_notes_command e st); Stderr (generate_failed text);
           Stderr url_parse_failed] st)
  = (Return notes, st2) ->
  create_release_notes_body e st = (Return (full_release_notes notes []), st2).
Proof.
  intros Hrun Hnotes. unfold create_release_notes_body.
  step.
  step_by ltac:(apply generate_command_failed; exact Hrun).
  step_by ltac:(rewrite get_release_notes_url_eq; reflexivity).
  rewrite log_logs, logs_logs. cbn [app].
  step_by ltac:(exact Hnotes).
  reflexivity.
Qed.

Lemma notes_without_the_hosted_link_witness :
  fst (create_release_notes_body (failing_env (Some (py "t")))
         (start (Some (py "2.0.0")) []))
  = Return (full_release_notes (py "A") []).
Proof.
  exact (f_equal fst
           (notes_without_the_hosted_link (failing_env (Some (py "t")))
              (start (Some (py "2.0.0")) []) _ (py "exit status 1") (py "A")
              eq_refl eq_refl)).
Defined.

(** X15. Notes from both sources. Let the hosted notes end in a line
    [**Full Changelog**: <url>]; let the first occurrence of
    [## <version>] in the changelog start a line, and the first [## ]
    after that heading line start a line too (the next heading). Then
    [create_release_notes_body] returns the text between the heading line
    and the next heading, stripped, two newlines, the label and [<url>],
    and prints no warning. *)
Theorem notes_from_both_sources (e : env) (st : state) (out : str)
    (items : list (str * pyobj)) (pre u t doc version : str) (i k : nat) :
  subprocess_run e (generate_notes_command e st) = ExitZero out ->
  json_loads e out = Loaded (PyDict items) ->
  dict_get (py "body") items
  = Some (PyStr (pre ++ py "**Full Changelog**: " ++ u ++ t)) ->
  pre = [] \/ (exists pre', pre = pre' ++ [NL]) ->
  ~ In NL u ->
  t = [] \/ t = [NL] ->
  file_read e (py "CHANGELOG.md") = Some doc ->
  version_number st = Some version ->
  find (py "## " ++ version) doc = Some i ->
  starts_line doc i = true ->
  find (py "## ") (skip_line (skipn (i + List.length (py "## " ++ version)) doc)) = Some k ->
  starts_line (skip_line (skipn (i + List.length (py "## " ++ version)) doc)) k = true ->
  create_release_notes_body e st
  = (Return (full_release_notes
               (strip (firstn k (skip_line
                                   (skipn (i + List.length (py "## " ++ version)) doc))))
               u),
     logs [Spawn (generate_notes_command e st)] st).
Proof.
  intros Hrun Hj Hb Hpre Hu Ht Hf Hv Hi _ Hk _. unfold create_release_notes_body.
  step.
  step_by ltac:(apply (generate_body_returned _ e st out items _ Hrun Hj Hb)).
  step_by ltac:(rewrite get_release_notes_url_eq, url_search;
                [reflexivity|exact Hpre|exact Hu|destruct Ht as [->| ->]; reflexivity]).
  step_by ltac:(erewrite get_changelog_release_notes_eq by first [exact Hf|exact Hv];
                rewrite (changelog_search_some version doc i k Hi Hk); reflexivity).
  reflexivity.
Qed.

Lemma notes_from_both_sources_witness :
  create_release_notes_body
    (sample_env (Some (py "t")) sample_notes_stdout sample_notes_json)
    (start (Some (py "2.0.0")) [])
  = (Return (full_release_notes (py "A") (py "https://x")),
     logs [Spawn (generate_notes_command
                    (sample_env (Some (py "t")) sample_notes_stdout sample_notes_json)
                    (start (Some (py "2.0.0")) []))]
          (start (Some (py "2.0.0")) [])).
Proof.
  refine (notes_from_both_sources
            (sample_env (Some (py "t")) sample_notes_stdout sample_notes_json)
            (start (Some (py "2.0.0")) []) sample_notes_stdout _
            (py "What's Changed
") (py "https://x") [] sample_changelog (py "2.0.0") 0 3
            eq_refl eq_refl eq_refl _ _ _ eq_refl eq_refl eq_refl eq_refl eq_refl eq_refl).
  - right. exists (py "What's Changed"). reflexivity.
  - intros H. vm_compute in H.
    repeat (destruct H as [H|H]; [discriminate|]). exact H.
  - left. reflexivity.
Defined.

(** X13. What [create_github_release_draft] reports: when the request
    exits with status zero and the reply is a JSON object, an [html_url]
    that is a string is printed after "Release created successfully: ",
    and a reply without [html_url] gives the warning on the error stream;
    in both cases the function returns. *)
Theorem draft_reply_is_reported (e : env) (st st1 : state) (body out : str)
    (items : list (str * pyobj)) :
  create_release_notes_body e st = (Return body, st1) ->
  subprocess_run e (release_command e st1 body) = ExitZero out ->
  json_loads e out = Loaded (PyDict items) ->
  (forall html_url,
      dict_get (py "html_url") items = Some (PyStr html_url) ->
      create_github_release_draft e st
      = (Return tt,
         logs [Spawn (release_command e st1 body); Stdout (release_created html_url)] st1))
  /\ (dict_get (py "html_url") items = None ->
      create_github_release_draft e st
      = (Return tt,
         logs [Spawn (release_command e st1 body); Stderr release_unconfirmed] st1)).
Proof.
  intros Hbody Hrun Hj.
  assert (H : create_github_release_draft e st
              = match dict_get (py "html_url") items with
                | Some (PyStr html_url) => print (release_created html_url)
                | Some _ => raise TypeError
                | None => eprint release_unconfirmed
                end e (logs [Spawn (release_command e st1 body)] st1)).
  { unfold create_github_release_draft.
    step_by ltac:(exact Hbody). step. step.
    step_by ltac:(rewrite run_eq; fold (release_command e st1 body);
                  rewrite Hrun; reflexivity).
    step_by ltac:(unfold loads; rewrite Hj; reflexivity).
    reflexivity. }
  rewrite H. split.
  - intros html_url ->. unfold print, emit. now rewrite log_logs, logs_logs.
  - intros ->. unfold eprint, emit. now rewrite log_logs, logs_logs.
Qed.

Lemma draft_reply_is_reported_witness :
  fst (create_github_release_draft
         (sample_env (Some (py "t")) sample_notes_stdout sample_release_json)
         (start (Some (py "2.0.0")) []))
  = Return tt.
Proof.
  exact (f_equal fst
           (proj1 (draft_reply_is_reported
                     (sample_env (Some (py "t")) sample_notes_stdout sample_release_json)
                     (start (Some (py "2.0.0")) []) _ _ sample_notes_stdout _
                     eq_refl eq_refl eq_refl)
                  (py "https://github.com/o/r/releases/1") eq_refl)).
Defined.

(** X18. The request that creates the draft is not fail-soft: when [curl]
    exits with a non-zero status there, [create_github_release_draft]
    raises [CalledProcessError] and reports nothing. *)
Theorem failed_draft_request_is_raised (e : env) (st st1 : state) (body text : str) :
  create_release_notes_body e st = (Return body, st1) ->
  subprocess_run e (release_command e st1 body) = ExitNonZero text ->
  create_github_release_draft e st
  = (Raise (CalledProcessError text), logs [Spawn (release_command e st1 body)] st1).
Proof.
  intros Hbody Hrun. unfold create_github_release_draft.
  step_by ltac:(exact Hbody). step. step.
  erewrite bind_Raise by (rewrite run_eq; fold (release_command e st1 body);
                          rewrite Hrun; reflexivity).
  reflexivity.
Qed.

Lemma failed_draft_request_is_raised_witness :
  fst (create_github_release_draft (failing_env (Some (py "t")))
         (start (Some (py "2.0.0")) []))
  = Raise (CalledProcessError (py "exit status 1")).
Proof.
  exact (f_equal fst
           (failed_draft_request_is_raised (failing_env (Some (py "t")))
              (start (Some (py "2.0.0")) []) _ _ (py "exit status 1")
              eq_refl eq_refl)).
Defined.

Lemma escape_newlines_app (a b : str) :
  escape_newlines (a ++ b) = escape_newlines a ++ escape_newlines b.
Proof. rewrite !escape_newlines_flat_map. apply flat_map_app. Qed.

Lemma escape_newlines_without_newline (u : str) :
  ~ In NL u -> escape_newlines u = u.
Proof.
  rewrite escape_newlines_flat_map. induction u as [|c u IH]; intros H; [reflexivity|].
  simpl. destruct (c =? NL) eqn:E.
  - apply N.eqb_eq in E. subst c. exfalso. apply H. now left.
  - simpl. f_equal. apply IH. intros Hin. apply H. now right.
Qed.

(** X19. What is sent for composed notes: the escaped changelog section,
    then the characters backslash, n, backslash, n in place of the two
    newlines, the label and the link as they are, when the link has no
    newline. Nothing but newlines is escaped. *)
Theorem composed_notes_as_sent (s u : str) :
  ~ In NL u ->
  escape_newlines (full_release_notes s u)
  = escape_newlines s ++ py "\n\n**Full Changelog**: " ++ u.
Proof.
  intros Hu. unfold full_release_notes.
  rewrite !escape_newlines_app, (escape_newlines_without_newline u Hu).
  reflexivity.
Qed.

Lemma composed_notes_as_sent_witness :
  escape_newlines (full_release_notes (py "Fixed
bug") (py "https://x"))
  = py "Fixed\nbug\n\n**Full Changelog**: https://x".
Proof.
  refine (composed_notes_as_sent (py "Fixed
bug") (py "https://x") _).
  intros H. vm_compute in H.
  repeat (destruct H as [H|H]; [discriminate|]). exact H.
Defined.

(** X20. A reply whose [body] is not a string stops the notes: the fetch
    returns the value as it is, the search for the link then raises
    [TypeError], and [create_release_notes_body] raises it without reading
    the changelog or printing a warning. *)
Theorem body_that_is_no_string_raises (e : env) (st : state) (out : str)
    (items : list (str * pyobj)) (body : pyobj) :
  subprocess_run e (generate_notes_command e st) = ExitZero out ->
  json_loads e out = Loaded (PyDict items) ->
  dict_get (py "body") items = Some body ->
  (forall text, body <> PyStr text) ->
  create_release_notes_body e st
  = (Raise TypeError, logs [Spawn (generate_notes_command e st)] st).
Proof.
  intros Hrun Hj Hb Hno. unfold create_release_notes_body.
  step.
  step_by ltac:(apply (generate_body_returned _ e st out items _ Hrun Hj Hb)).
  erewrite bind_Raise; [reflexivity|].
  unfold get_release_notes_url, compile. rewrite compile_url_pattern.
  step. destruct body; try reflexivity. now destruct (Hno s).
Qed.

Lemma body_that_is_no_string_raises_witness :
  create_release_notes_body
    (sample_env (Some (py "t")) null_body_stdout null_body_json)
    (start (Some (py "2.0.0")) [])
  = (Raise TypeError,
     logs [Spawn (generate_notes_command
                    (sample_env (Some (py "t")) null_body_stdout null_body_json)
                    (start (Some (py "2.0.0")) []))]
          (start (Some (py "2.0.0")) [])).
Proof.
  refine (body_that_is_no_string_raises
            (sample_env (Some (py "t")) null_body_stdout null_body_json)
            (start (Some (py "2.0.0")) []) null_body_stdout _ PyNone
            eq_refl eq_refl eq_refl _).
  intros text H. discriminate.
Defined.
